(** * The two validation scripts of ai-workflow-runner

    - [examples/with-validation/validate.py]: the schema validator,
      embedded in module [Schema];
    - [test/e2e-fixtures/validate.py]: the keyword validator, embedded in
      module [Keyword].

    Both are module bodies that read the environment variable
    [AI_LAST_MESSAGE], print to standard output and terminate.  They are
    embedded as computations in a small state-and-exception monad over the
    process' world (module [Py]); the part of the standard library's JSON
    decoder that [json.loads] runs is modelled in module [Json]. *)

From Stdlib Require Import ZArith List String Ascii Bool Lia DecimalString.
From stdpp Require Import gmap list.

Local Open Scope Z_scope.

(** ** The fragment of Python the scripts use *)
Module Py.

(** A [str] is a sequence of Unicode code points. *)
Definition pystr : Type := list Z.

Definition ch (a : ascii) : Z := Z.of_N (N_of_ascii a).

(** A literal of the source, written with Rocq's string notation. *)
Definition lit (s : string) : pystr := ch <$> list_ascii_of_string s.
Arguments lit s%_string.

(** The same with an apostrophe standing for the double quote (34), for
    JSON documents. *)
Definition qlit (s : string) : pystr :=
  (fun c => if c =? 39 then 34 else c) <$> lit s.
Arguments qlit s%_string.

Definition str_eqb (a b : pystr) : bool := bool_decide (a = b).

(** [prefix in s] at position 0: [s.startswith(prefix)]. *)
Fixpoint startswith (s prefix : pystr) {struct prefix} : bool :=
  match prefix, s with
  | [], _ => true
  | p :: prefix', c :: s' => (c =? p) && startswith s' prefix'
  | _ :: _, [] => false
  end.

(** [sub in s] for two strings: [sub] occurs at some position of [s]. *)
Fixpoint str_contains (s sub : pystr) : bool :=
  startswith s sub ||
  match s with
  | [] => false
  | _ :: s' => str_contains s' sub
  end.

(** [sep.join(l)] *)
Fixpoint join (sep : pystr) (l : list pystr) : pystr :=
  match l with
  | [] => []
  | [x] => x
  | x :: l' => x ++ sep ++ join sep l'
  end.

(** [Py_UNICODE_ISSPACE]: the characters [str.strip()] removes. *)
Definition isspace (c : Z) : bool :=
  ((9 <=? c) && (c <=? 13)) || ((28 <=? c) && (c <=? 32)) ||
  (c =? 0x85) || (c =? 0xA0) || (c =? 0x1680) ||
  ((0x2000 <=? c) && (c <=? 0x200A)) ||
  (c =? 0x2028) || (c =? 0x2029) || (c =? 0x202F) || (c =? 0x205F) ||
  (c =? 0x3000).

Fixpoint lstrip (s : pystr) : pystr :=
  match s with
  | c :: s' => if isspace c then lstrip s' else s
  | [] => []
  end.

Definition rstrip (s : pystr) : pystr := rev (lstrip (rev s)).

(** [s.strip()] *)
Definition strip (s : pystr) : pystr := rstrip (lstrip s).

(** The Unicode character database of the interpreter, as far as
    [str.lower()] consults it.  The tables are not part of the repository;
    the scripts are verified for every database. *)
Class unicode_db := {
  to_lower_full : Z -> pystr;       (* _PyUnicode_ToLowerFull, above U+007F *)
  is_cased : Z -> bool;             (* _PyUnicode_IsCased *)
  is_case_ignorable : Z -> bool     (* _PyUnicode_IsCaseIgnorable *)
}.

Section Lower.
Context {db : unicode_db}.

Definition ascii_lower (c : Z) : Z :=
  if (65 <=? c) && (c <=? 90) then c + 32 else c.

(** The first character of [s] that is not case-ignorable is cased. *)
Fixpoint cased_first (s : pystr) : bool :=
  match s with
  | [] => false
  | c :: s' => if is_case_ignorable c then cased_first s' else is_cased c
  end.

(** [handle_capital_sigma]: U+03A3 lowers to the final sigma U+03C2 when
    a cased letter precedes it and none follows, case-ignorable
    characters skipped on both sides.  [before] is the text before the
    sigma, nearest character first. *)
Definition handle_capital_sigma (before after : pystr) : Z :=
  if cased_first before && negb (cased_first after) then 0x3C2 else 0x3C3.

Definition lower_ucs4 (before : pystr) (c : Z) (after : pystr) : pystr :=
  if (0 <=? c) && (c <? 128) then [ascii_lower c]
  else if c =? 0x3A3 then [handle_capital_sigma before after]
  else to_lower_full c.

Fixpoint do_lower (before s : pystr) : pystr :=
  match s with
  | [] => []
  | c :: s' => lower_ucs4 before c s' ++ do_lower (c :: before) s'
  end.

(** [s.lower()] *)
Definition lower (s : pystr) : pystr := do_lower [] s.
End Lower.

(** The limits of the interpreter that a decoder of text runs into.  They
    are settings of the installation, not of the repository; the scripts
    are verified for every setting. *)
Class interpreter := {
  max_nesting : nat;      (* nested calls left when [json.loads] starts *)
  max_str_digits : nat    (* sys.get_int_max_str_digits(); 0 is no limit *)
}.

(** The decimal digits of a natural number, [str(n)] or ["%d" % n]. *)
Definition str_of_nat (n : nat) : pystr :=
  lit (NilZero.string_of_uint (Nat.to_uint n)).

(** *** The process: environment, standard output, exceptions *)

(** The exceptions the scripts can meet.  A [JSONDecodeError] carries its
    message, the document and the position, as the decoder raises it; a
    [TypeError] the type name of the operand that [in] refused;
    [ValueError] is what the conversion of an integer literal with too many
    digits raises, [RecursionError] what a decoder raises on a document
    that is nested too deeply. *)
Inductive exn :=
| SystemExit (code : Z)
| JSONDecodeError (msg doc : pystr) (pos : nat)
| TypeError (tp : pystr)
| ValueError
| RecursionError.

(** The world a script runs in.  [stdout] is the text written so far;
    [decoded] records the documents handed to [json.loads], oldest first
    (a ghost field: the scripts cannot read it). *)
Record world := World {
  environ : gmap pystr pystr;
  stdout : pystr;
  decoded : list pystr
}.

Inductive res (A : Type) :=
| Val (a : A)
| Raise (e : exn).
Arguments Val {A} a.
Arguments Raise {A} e.

#[global] Instance res_ret : MRet res := fun A a => Val a.

#[global] Instance res_bind : MBind res := fun A B k r =>
  match r with
  | Val a => k a
  | Raise e => Raise e
  end.

Definition M (A : Type) : Type := world -> world * res A.

#[global] Instance M_ret : MRet M := fun A a w => (w, Val a).

#[global] Instance M_bind : MBind M := fun A B k m w =>
  match m w with
  | (w', Val a) => k a w'
  | (w', Raise e) => (w', Raise e)
  end.

Definition raise {A} (e : exn) : M A := fun w => (w, Raise e).

(** An expression that reads and writes nothing, as a step of a script. *)
Definition lift {A} (r : res A) : M A := fun w => (w, r).

(** The truth value of a string or a list in a condition: not empty. *)
Definition truthy {A} (l : list A) : bool :=
  match l with
  | [] => false
  | _ :: _ => true
  end.

(** [try: body except JSONDecodeError as e: handler(e)]: the one handler
    the scripts install; every other exception passes through it. *)
Definition try_except_JSONDecodeError {A}
    (body : M A) (handler : pystr -> pystr -> nat -> M A) : M A :=
  fun w =>
    match body w with
    | (w', Raise (JSONDecodeError msg doc pos)) => handler msg doc pos w'
    | r => r
    end.

(** [os.environ.get(key, default)] *)
Definition environ_get (key dflt : pystr) : M pystr :=
  fun w => (w, Val (default dflt (environ w !! key))).

(** [print(s)]: the text and a newline. *)
Definition print (s : pystr) : M unit :=
  fun w => (World (environ w) (stdout w ++ s ++ [10]) (decoded w), Val tt).

(** [sys.exit(code)] *)
Definition sys_exit {A} (code : Z) : M A := raise (SystemExit code).

(** What the operating system sees of a run: the text on standard output,
    the exit status, and the exception the interpreter reported on standard
    error when the script died of one. *)
Record outcome := Outcome {
  output : pystr;
  status : Z;
  traceback : option exn
}.

(** The interpreter running a module body: a [SystemExit] ends the process
    with its code, any other exception that reaches the top is reported
    and ends it with status 1. *)
Definition run (main : M unit) (env : gmap pystr pystr) : outcome :=
  match main (World env [] []) with
  | (w, Val _) => Outcome (stdout w) 0 None
  | (w, Raise (SystemExit code)) => Outcome (stdout w) code None
  | (w, Raise e) => Outcome (stdout w) 1 (Some e)
  end.

(** The value [os.environ.get("AI_LAST_MESSAGE", "")] has in [env]. *)
Definition AI_LAST_MESSAGE : pystr := lit "AI_LAST_MESSAGE".

Definition message_of (env : gmap pystr pystr) : pystr :=
  default (lit "") (env !! AI_LAST_MESSAGE).

(** The documents a run handed to the JSON decoder. *)
Definition run_decoded (main : M unit) (env : gmap pystr pystr) : list pystr :=
  decoded (main (World env [] [])).1.

End Py.

(** ** json.loads

    The decoder of the standard library ([json.loads] with its default
    arguments, as the accelerated scanner of CPython 3.8 to 3.12 runs it),
    on a document given as the characters still to read.  An error records
    how many characters were left at the position it reports.  The decoder
    runs into two limits of the interpreter: entering a container takes a
    nested call ([RecursionError] when none is left) and an integer
    literal is converted by [int] ([ValueError] above [max_str_digits]
    digits). *)
Module Json.
Import Py.

#[warnings="-register-all"]
Inductive value :=
| JNull
| JBool (b : bool)
| JInt (n : Z)
| JFloat (literal : pystr)
| JStr (s : pystr)
| JList (items : list value)
| JDict (pairs : list (pystr * value)).

Inductive scan (A : Type) :=
| Ok (a : A) (rest : pystr)
| Err (msg : pystr) (remaining : nat)
| Fail (e : exn)
| Exhausted.
Arguments Ok {A} a rest.
Arguments Err {A} msg remaining.
Arguments Fail {A} e.
Arguments Exhausted {A}.

Definition and_then {A B} (m : scan A) (k : A -> pystr -> scan B) : scan B :=
  match m with
  | Ok a rest => k a rest
  | Err msg n => Err msg n
  | Fail e => Fail e
  | Exhausted => Exhausted
  end.

Notation "'let*' ( a , r ) := m 'in' k" := (and_then m (fun a r => k))
  (at level 10, a name, r name, m at level 100, k at level 200).

(** [s] without its first character when that is [c]. *)
Definition expect (c : Z) (s : pystr) : option pystr :=
  match s with
  | x :: t => if x =? c then Some t else None
  | [] => None
  end.

(** WHITESPACE = [ \t\n\r]* *)
Definition is_ws (c : Z) : bool :=
  (c =? 32) || (c =? 9) || (c =? 10) || (c =? 13).

Fixpoint skip_ws (s : pystr) : pystr :=
  match s with
  | c :: t => if is_ws c then skip_ws t else s
  | [] => []
  end.

(** *** Strings: scanstring *)

Definition hex_digit (c : Z) : option Z :=
  if (48 <=? c) && (c <=? 57) then Some (c - 48)
  else if (97 <=? c) && (c <=? 102) then Some (c - 97 + 10)
  else if (65 <=? c) && (c <=? 70) then Some (c - 65 + 10)
  else None.

Definition hex4 (a b c d : Z) : option Z :=
  a ← hex_digit a; b ← hex_digit b; c ← hex_digit c; d ← hex_digit d;
  Some (Z.lor (Z.shiftl (Z.lor (Z.shiftl (Z.lor (Z.shiftl a 4) b) 4) c) 4) d).

Definition is_high_surrogate (c : Z) : bool := (0xD800 <=? c) && (c <=? 0xDBFF).
Definition is_low_surrogate (c : Z) : bool := (0xDC00 <=? c) && (c <=? 0xDFFF).
Definition join_surrogates (hi lo : Z) : Z :=
  0x10000 + Z.lor (Z.shiftl (Z.land hi 0x3FF) 10) (Z.land lo 0x3FF).

(** The character a backslash escape other than [\u] stands for. *)
Definition unescape (c : Z) : option Z :=
  if (c =? 34) || (c =? 92) || (c =? 47) then Some c
  else if c =? ch "b" then Some 8
  else if c =? ch "f" then Some 12
  else if c =? ch "n" then Some 10
  else if c =? ch "r" then Some 13
  else if c =? ch "t" then Some 9
  else None.

Definition unterminated : pystr := lit "Unterminated string starting at".
Definition invalid_control : pystr := lit "Invalid control character at".
Definition invalid_escape : pystr := lit "Invalid \escape".
Definition invalid_uXXXX : pystr := lit "Invalid \uXXXX escape".

(** [s] starts after the opening quote, which had [begin] characters left;
    [chunks] is the text decoded so far.  A [\u] escape is read only when
    a character follows its four digits, and so is the second escape of a
    surrogate pair. *)
Fixpoint scanstring (begin : nat) (chunks s : pystr) {struct s} : scan pystr :=
  match s with
  | [] => Err unterminated begin
  | c :: s1 =>
    if c =? 34 then Ok chunks s1
    else if c =? 92 then
      match s1 with
      | [] => Err unterminated begin
      | e :: s2 =>
        if e =? ch "u" then
          match s2 with
          | h1 :: h2 :: h3 :: h4 :: ((_ :: _) as s3) =>
            match hex4 h1 h2 h3 h4 with
            | None => Err invalid_uXXXX (length s1)
            | Some c1 =>
              match s3 with
              | b :: u :: g1 :: g2 :: g3 :: g4 :: ((_ :: _) as s4) =>
                if is_high_surrogate c1 && (b =? 92) && (u =? ch "u") then
                  match hex4 g1 g2 g3 g4 with
                  | None => Err invalid_uXXXX (length s3 - 1)
                  | Some c2 =>
                    if is_low_surrogate c2
                    then scanstring begin (chunks ++ [join_surrogates c1 c2]) s4
                    else scanstring begin (chunks ++ [c1]) s3
                  end
                else scanstring begin (chunks ++ [c1]) s3
              | _ => scanstring begin (chunks ++ [c1]) s3
              end
            end
          | _ => Err invalid_uXXXX (length s1)
          end
        else
          match unescape e with
          | Some c' => scanstring begin (chunks ++ [c']) s2
          | None => Err invalid_escape (length s)
          end
      end
    else if c <=? 0x1F then Err invalid_control (length s)
    else scanstring begin (chunks ++ [c]) s1
  end.

(** *** Numbers

    A number is an optional minus sign, then [0] or a digit from 1 to 9
    followed by digits, then optionally a dot and at least one digit, then
    optionally [e] or [E], an optional sign and at least one digit
    (NUMBER_RE of json.scanner). *)

Definition is_digit (c : Z) : bool := (48 <=? c) && (c <=? 57).

(** The longest run of digits at the head of [s], and what follows it. *)
Fixpoint span_digits (s : pystr) : pystr * pystr :=
  match s with
  | c :: t =>
    if is_digit c then let '(ds, r) := span_digits t in (c :: ds, r)
    else ([], s)
  | [] => ([], [])
  end.

Definition int_of_digits (ds : pystr) : Z :=
  fold_left (fun a d => 10 * a + (d - 48)) ds 0.

Definition expecting_value : pystr := lit "Expecting value".

(** The integer part: [0], or a digit from 1 to 9 and the digits after it. *)
Definition match_integer (s : pystr) : option (pystr * pystr) :=
  match s with
  | c :: t =>
    if (49 <=? c) && (c <=? 57) then
      let '(ds, r) := span_digits t in Some (c :: ds, r)
    else if c =? 48 then Some ([c], t)
    else None
  | [] => None
  end.

(** The fraction, when a dot and a digit follow. *)
Definition match_frac (s : pystr) : pystr * pystr :=
  match s with
  | d :: f :: t =>
    if (d =? ch ".") && is_digit f then
      let '(fs, r) := span_digits t in (d :: f :: fs, r)
    else ([], s)
  | _ => ([], s)
  end.

(** The exponent, when [e] or [E], an optional sign and a digit follow. *)
Definition match_exp (s : pystr) : pystr * pystr :=
  match s with
  | e :: t =>
    if (e =? ch "e") || (e =? ch "E") then
      let '(sign, t') :=
        match t with
        | g :: t' => if (g =? ch "-") || (g =? ch "+") then ([g], t') else ([], t)
        | [] => ([], t)
        end in
      match span_digits t' with
      | ([], _) => ([], s)
      | (ds, r) => (e :: sign ++ ds, r)
      end
    else ([], s)
  | [] => ([], s)
  end.

Section Decoder.
Context {py : interpreter}.

(** [int] refuses a literal of more than [max_str_digits] digits. *)
Definition too_many_digits (digits : pystr) : bool :=
  (0 <? max_str_digits)%nat && (max_str_digits <? length digits)%nat.

Definition match_number (s : pystr) : scan value :=
  let '(sign, s1) :=
    match s with
    | c :: t => if c =? ch "-" then ([c], t) else ([], s)
    | [] => ([], s)
    end in
  match match_integer s1 with
  | None => Err expecting_value (length s)
  | Some (int, r) =>
    let '(frac, r1) := match_frac r in
    let '(exp, r2) := match_exp r1 in
    match frac, exp with
    | [], [] =>
      if too_many_digits int then Fail ValueError
      else
        Ok (JInt (if sign is [] then int_of_digits int else - int_of_digits int)) r2
    | _, _ => Ok (JFloat (sign ++ int ++ frac ++ exp)) r2
    end
  end.

(** The named constants, then numbers. *)
Definition match_constant (s : pystr) : scan value :=
  if startswith s (lit "null") then Ok JNull (drop 4 s)
  else if startswith s (lit "true") then Ok (JBool true) (drop 4 s)
  else if startswith s (lit "false") then Ok (JBool false) (drop 5 s)
  else if startswith s (lit "NaN") then Ok (JFloat (lit "NaN")) (drop 3 s)
  else if startswith s (lit "Infinity") then Ok (JFloat (lit "Infinity")) (drop 8 s)
  else if startswith s (lit "-Infinity") then Ok (JFloat (lit "-Infinity")) (drop 9 s)
  else match_number s.

(** *** Values: scan_once

    [scan_once] reads one value; [parse_object] and [parse_array] are the
    loops over the members of an object and the items of an array, entered
    after the opening bracket when the container is not empty.  Every call
    takes one unit of [fuel]; [decode] supplies enough of it
    ([scan_once_fuel] below).  [depth] is the number of nested calls left:
    entering an object or an array takes one. *)

Definition expecting_name : pystr :=
  lit "Expecting property name enclosed in double quotes".
Definition expecting_colon : pystr := lit "Expecting ':' delimiter".
Definition expecting_comma : pystr := lit "Expecting ',' delimiter".

Fixpoint scan_once (fuel depth : nat) (s : pystr) {struct fuel} : scan value :=
  match fuel with
  | O => Exhausted
  | S fuel =>
    match s with
    | [] => Err expecting_value 0
    | c :: t =>
      if c =? 34 then
        let* (str, r) := scanstring (length s) [] t in Ok (JStr str) r
      else if c =? ch "{" then
        match depth with
        | O => Fail RecursionError
        | S depth =>
          let t := skip_ws t in
          match expect (ch "}") t with
          | Some r => Ok (JDict []) r
          | None => parse_object fuel depth t []
          end
        end
      else if c =? ch "[" then
        match depth with
        | O => Fail RecursionError
        | S depth =>
          let t := skip_ws t in
          match expect (ch "]") t with
          | Some r => Ok (JList []) r
          | None => parse_array fuel depth t []
          end
        end
      else match_constant s
    end
  end

with parse_object (fuel depth : nat) (s : pystr) (pairs : list (pystr * value))
    {struct fuel} : scan value :=
  match fuel with
  | O => Exhausted
  | S fuel =>
    match expect 34 s with
    | None => Err expecting_name (length s)
    | Some t =>
      let* (key, r) := scanstring (length s) [] t in
      let r := skip_ws r in
      match expect (ch ":") r with
      | None => Err expecting_colon (length r)
      | Some r =>
        let* (val, r) := scan_once fuel depth (skip_ws r) in
        let pairs := pairs ++ [(key, val)] in
        let r := skip_ws r in
        match expect (ch "}") r with
        | Some r => Ok (JDict pairs) r
        | None =>
          match expect (ch ",") r with
          | None => Err expecting_comma (length r)
          | Some r => parse_object fuel depth (skip_ws r) pairs
          end
        end
      end
    end
  end

with parse_array (fuel depth : nat) (s : pystr) (items : list value)
    {struct fuel} : scan value :=
  match fuel with
  | O => Exhausted
  | S fuel =>
    let* (val, r) := scan_once fuel depth s in
    let items := items ++ [val] in
    let r := skip_ws r in
    match expect (ch "]") r with
    | Some r => Ok (JList items) r
    | None =>
      match expect (ch ",") r with
      | None => Err expecting_comma (length r)
      | Some r => parse_array fuel depth (skip_ws r) items
      end
    end
  end.

(** *** JSONDecoder.decode and json.loads *)

Definition extra_data : pystr := lit "Extra data".
Definition unexpected_bom : pystr :=
  lit "Unexpected UTF-8 BOM (decode using utf-8-sig)".

Definition fuel_for (s : pystr) : nat := (2 * length s + 2)%nat.

(** The value, then only white space up to the end of the document. *)
Definition scan_document (s : pystr) : scan value :=
  let* (obj, r) := scan_once (fuel_for s) max_nesting (skip_ws s) in
  match skip_ws r with
  | [] => Ok obj []
  | r => Err extra_data (length r)
  end.

Definition decode (s : pystr) : res value :=
  if startswith s [0xFEFF] then Raise (JSONDecodeError unexpected_bom s 0)
  else
    match scan_document s with
    | Ok obj _ => Val obj
    | Err msg n => Raise (JSONDecodeError msg s (length s - n))
    | Fail e => Raise e
    | Exhausted => Raise RecursionError
    end.

(** [json.loads(s)] *)
Definition loads (s : pystr) : M value :=
  fun w => (World (environ w) (stdout w) (decoded w ++ [s]), decode s).
End Decoder.

(** [str(e)] for a [JSONDecodeError]:
    ["%s: line %d column %d (char %d)" % (msg, lineno, colno, pos)]. *)
Fixpoint lineno (before : pystr) (line : nat) : nat :=
  match before with
  | [] => line
  | c :: t => lineno t (if c =? 10 then S line else line)
  end.

Fixpoint colno (before : pystr) (col : nat) : nat :=
  match before with
  | [] => col
  | c :: t => colno t (if c =? 10 then 1%nat else S col)
  end.

Definition errmsg (msg doc : pystr) (pos : nat) : pystr :=
  msg ++ lit ": line " ++ str_of_nat (lineno (take pos doc) 1) ++
  lit " column " ++ str_of_nat (colno (take pos doc) 1) ++
  lit " (char " ++ str_of_nat pos ++ lit ")".

(** *** Membership: [f in data] for a string [f]

    A dict is asked for the key, a list for an item equal to [f], a string
    for an occurrence of [f]; the other values are no containers and
    [in] raises [TypeError] on them. *)
Definition is_str (f : pystr) (v : value) : bool :=
  match v with
  | JStr s => str_eqb s f
  | _ => false
  end.

Definition contains (data : value) (f : pystr) : res bool :=
  match data with
  | JDict pairs => Val (bool_decide (f ∈ pairs.*1))
  | JList items => Val (existsb (is_str f) items)
  | JStr s => Val (str_contains s f)
  | JInt _ => Raise (TypeError (lit "int"))
  | JFloat _ => Raise (TypeError (lit "float"))
  | JBool _ => Raise (TypeError (lit "bool"))
  | JNull => Raise (TypeError (lit "NoneType"))
  end.

End Json.

(** ** examples/with-validation/validate.py *)
Module Schema.
Import Py Json.

Definition required : list pystr :=
  [lit "name"; lit "description"; lit "language"].

(** [[f for f in fields if f not in data]] *)
Fixpoint missing_fields (data : value) (fields : list pystr) : res (list pystr) :=
  match fields with
  | [] => mret []
  | f :: fields =>
    present ← contains data f;
    rest ← missing_fields data fields;
    mret (if negb present then f :: rest else rest)
  end.

Section Script.
Context {py : interpreter}.

Definition main : M unit :=
  message ← environ_get AI_LAST_MESSAGE (lit "");
  if negb (truthy (strip message)) then
    print (lit "No output received from AI")
  else
    try_except_JSONDecodeError
      (data ← loads message;
       missing ← lift (missing_fields data required);
       if truthy missing then
         print (lit "Missing required fields: " ++ join (lit ", ") missing)
       else
         print (lit "true"))
      (fun msg doc pos =>
         print (lit "Output is not valid JSON: " ++ errmsg msg doc pos)).
End Script.

End Schema.

(** ** test/e2e-fixtures/validate.py *)
Module Keyword.
Import Py.

Definition keywords : list pystr :=
  [lit "file"; lit "directory"; lit "hello"; lit "hi"; lit "test";
   lit "workflow"; lit ".md"; lit ".py"; lit ".js"].

Section Script.
Context {db : unicode_db}.

Definition main : M unit :=
  last_message ← environ_get AI_LAST_MESSAGE (lit "");
  (if negb (truthy last_message) then
     print (lit "No AI response received");;
     sys_exit 0
   else mret tt);;
  if existsb (fun keyword => str_contains (lower last_message) (lower keyword))
       keywords
  then print (lit "true")
  else print (lit "Expected keywords but got: " ++ take 200 last_message ++
              lit "...").
End Script.

End Keyword.

(** ** Vocabulary of the properties *)

(** The environment in which [AI_LAST_MESSAGE] is [message] and nothing
    else is set. *)
Definition env_with (message : Py.pystr) : gmap Py.pystr Py.pystr :=
  {[ Py.AI_LAST_MESSAGE := message ]}.

(** A character database without case mappings above U+007F. *)
Definition plain_db : Py.unicode_db :=
  {| Py.to_lower_full c := [c];
     Py.is_cased _ := false;
     Py.is_case_ignorable _ := false |}.

(** The limits of a CPython installation as it comes: a thousand nested
    calls, 4300 digits. *)
Definition cpython : Py.interpreter :=
  {| Py.max_nesting := 1000; Py.max_str_digits := 4300 |}.

(** The keys of a decoded object; another value has none. *)
Definition keys_of (data : Json.value) : list Py.pystr :=
  match data with
  | Json.JDict pairs => pairs.*1
  | _ => []
  end.

Import Py Json.

(** The message is white space throughout; the empty message is. *)
Definition blank (s : pystr) : Prop := Forall (fun c => isspace c = true) s.

(** A run that printed the one line [line] and ended with status 0. *)
Definition printed (line : pystr) : outcome := Outcome (line ++ [10]) 0 None.

(** [f] is a key of the object, an item of the array, or occurs in the
    string; nothing is a member of another value. *)
Definition member (f : pystr) (data : value) : Prop :=
  match data with
  | JDict pairs => f ∈ pairs.*1
  | JList items => JStr f ∈ items
  | JStr s => exists pre post, s = pre ++ f ++ post
  | _ => False
  end.

(** The values [in] accepts on its right. *)
Definition container (data : value) : Prop :=
  match data with
  | JDict _ | JList _ | JStr _ => True
  | _ => False
  end.

#[global] Instance container_dec (data : value) : Decision (container data).
Proof. destruct data; simpl; apply _. Defined.

(** [sub] occurs in [s]. *)
Definition occurs_in (sub s : pystr) : Prop :=
  exists pre post, s = pre ++ sub ++ post.

(** A keyword of the list occurs in the message, letter case aside:
    both are compared in lower case. *)
Definition mentions_keyword {db : unicode_db} (message : pystr) : Prop :=
  exists keyword,
    keyword ∈ [lit "file"; lit "directory"; lit "hello"; lit "hi";
               lit "test"; lit "workflow"; lit ".md"; lit ".py"; lit ".js"] /\
    occurs_in (lower keyword) (lower message).

(** Case folding of a text, character by character: A to Z become a to z,
    the capital sigma becomes the small one, and a character above U+007F
    becomes what the character database gives for it. *)
Definition fold_char {db : unicode_db} (c : Z) : pystr :=
  if (65 <=? c) && (c <=? 90) then [c + 32]
  else if (0 <=? c) && (c <? 128) then [c]
  else if c =? 0x3A3 then [0x3C3]
  else to_lower_full c.

Definition casefold {db : unicode_db} (s : pystr) : pystr :=
  concat (fold_char <$> s).

(** One of the keywords occurs in the case-folded message. *)
Definition caseless_keyword {db : unicode_db} (message : pystr) : Prop :=
  exists keyword,
    keyword ∈ [lit "file"; lit "directory"; lit "hello"; lit "hi";
               lit "test"; lit "workflow"; lit ".md"; lit ".py"; lit ".js"] /\
    occurs_in keyword (casefold message).

(** What a scanning function may answer on [s]: a result that took at
    least one character, an error, or one of the two exceptions of the
    interpreter's limits; it does not run out of fuel. *)
Definition progress {A} (s : pystr) (m : scan A) : Prop :=
  match m with
  | Ok _ r => (length r < length s)%nat
  | Err _ _ => True
  | Fail e => e = ValueError \/ e = RecursionError
  | Exhausted => False
  end.

(** The number of newline characters of a text. *)
Definition newlines (s : list Z) : nat := length (filter (fun c => c = 10) s).

(** ** Tactics *)

(** Evaluate the character and string literals of the goal. *)
Ltac eval_literals :=
  vm_compute (ch _);
  repeat match goal with
  | |- context [lit ?x] =>
    let v := eval vm_compute in (lit x) in change (lit x) with v
  end.

(** Unfold a run of a script down to the tests on its message. *)
Ltac schema_steps env :=
  unfold run, run_decoded, Schema.main, mbind, M_bind, environ_get,
    try_except_JSONDecodeError, loads, lift, print;
  cbn [environ stdout decoded fst];
  change (default (lit "") (env !! AI_LAST_MESSAGE)) with (message_of env).

Ltac keyword_steps env :=
  unfold run, Keyword.main, mbind, M_bind, mret, M_ret, environ_get,
    sys_exit, raise, print;
  cbn [environ stdout decoded];
  change (default (lit "") (env !! AI_LAST_MESSAGE)) with (message_of env).

(** * Properties *)

(** ** Strings *)

Lemma startswith_spec (s p : pystr) :
  startswith s p = true <-> exists post, s = p ++ post.
Proof.
  revert s. induction p as [|c p IH]; intros s; simpl.
  - split; [intros _; exists s; reflexivity | intros _; reflexivity].
  - destruct s as [|d s].
    + split; [done | intros [post Hpost]; discriminate].
    + rewrite andb_true_iff, Z.eqb_eq, IH. split.
      * intros [-> [post ->]]. by exists post.
      * intros [post Hpost]. injection Hpost as -> ->. eauto.
Qed.

Lemma str_contains_spec (s sub : pystr) :
  str_contains s sub = true <-> exists pre post, s = pre ++ sub ++ post.
Proof.
  induction s as [|c s IH].
  - simpl. rewrite orb_false_r, startswith_spec. split.
    + intros [post ->]. by exists [], post.
    + intros [pre [post Heq]]. symmetry in Heq.
      apply app_eq_nil in Heq as [-> Heq]. exists post. by rewrite Heq.
  - cbn [str_contains]. rewrite orb_true_iff, IH, startswith_spec. split.
    + intros [[post ->] | [pre [post ->]]].
      * by exists [], post.
      * by exists (c :: pre), post.
    + intros [[|d pre] [post Heq]]; simpl in Heq.
      * left. by exists post.
      * right. injection Heq as _ ->. by exists pre, post.
Qed.

Lemma lstrip_nil (s : pystr) : lstrip s = [] <-> blank s.
Proof.
  unfold blank. induction s as [|c s IH]; simpl.
  - split; [constructor | done].
  - destruct (isspace c) eqn:Hc.
    + rewrite IH. split; [by constructor | by inversion 1].
    + split; [done | inversion 1; congruence].
Qed.

Lemma lstrip_head (s : pystr) c t : lstrip s = c :: t -> isspace c = false.
Proof.
  induction s as [|d s IH]; simpl; [done |].
  destruct (isspace d) eqn:Hd; [done |]. by intros [= <- _].
Qed.

(** [s.strip()] is empty exactly when [s] is white space throughout. *)
Lemma strip_nil (s : pystr) : strip s = [] <-> blank s.
Proof.
  rewrite <- lstrip_nil. unfold strip, rstrip. split.
  - intros Hs. destruct (lstrip s) as [|c t] eqn:Hl; [done |].
    apply lstrip_head in Hl.
    assert (Hr : lstrip (rev (c :: t)) = []).
    { apply (f_equal (@rev Z)) in Hs. by rewrite rev_involutive in Hs. }
    apply lstrip_nil in Hr. unfold blank in Hr.
    rewrite Forall_forall in Hr. specialize (Hr c).
    rewrite Hr in Hl; [done |].
    apply list_elem_of_In. apply -> in_rev. by left.
  - by intros ->.
Qed.

(** ** The decoder *)

Lemma skip_ws_length (s : pystr) : (length (skip_ws s) <= length s)%nat.
Proof.
  induction s as [|c s IH]; simpl; [lia |].
  destruct (is_ws c); simpl; lia.
Qed.

Lemma skip_ws_blank (s : pystr) : blank s -> blank (skip_ws s).
Proof.
  unfold blank. induction 1 as [|c s Hc Hs IH]; simpl; [constructor |].
  destruct (is_ws c); [done | by constructor].
Qed.

Lemma expect_length c (s t : pystr) :
  expect c s = Some t -> length s = S (length t).
Proof.
  destruct s as [|x s]; simpl; [done |].
  destruct (x =? c); [| done]. by intros [= ->].
Qed.

Lemma span_digits_length (s ds r : pystr) :
  span_digits s = (ds, r) -> (length r <= length s)%nat.
Proof.
  revert ds r. induction s as [|c s IH]; simpl; intros ds r.
  - intros [= <- <-]. simpl. lia.
  - destruct (is_digit c).
    + destruct (span_digits s) as [ds' r'] eqn:Hs. intros [= <- <-].
      specialize (IH _ _ eq_refl). lia.
    + intros [= <- <-]. simpl. lia.
Qed.

Lemma match_integer_length (s int r : pystr) :
  match_integer s = Some (int, r) -> (length r < length s)%nat.
Proof.
  destruct s as [|c s]; simpl; [done |].
  destruct ((49 <=? c) && (c <=? 57)).
  - destruct (span_digits s) as [ds r'] eqn:Hs. intros [= <- <-].
    apply span_digits_length in Hs. lia.
  - destruct (c =? 48); [| done]. intros [= <- <-]. lia.
Qed.

Lemma match_frac_length (s frac r : pystr) :
  match_frac s = (frac, r) -> (length r <= length s)%nat.
Proof.
  destruct s as [|d [|f t]]; simpl; try (intros [= <- <-]; simpl; lia).
  destruct ((d =? ch ".") && is_digit f).
  - destruct (span_digits t) as [fs r'] eqn:Ht. intros [= <- <-].
    apply span_digits_length in Ht. lia.
  - intros [= <- <-]. simpl. lia.
Qed.

Lemma match_exp_length (s exp r : pystr) :
  match_exp s = (exp, r) -> (length r <= length s)%nat.
Proof.
  destruct s as [|e t]; simpl; [intros [= <- <-]; simpl; lia |].
  destruct ((e =? ch "e") || (e =? ch "E")); [| intros [= <- <-]; simpl; lia].
  assert (Hsign : forall sign t', (length t' <= length t)%nat ->
    match span_digits t' with
    | ([], _) => ([], e :: t)
    | (ds, r0) => (e :: sign ++ ds, r0)
    end = (exp, r) -> (length r <= S (length t))%nat).
  { intros sign t' Ht'. destruct (span_digits t') as [[|d ds] r0] eqn:Hs.
    - intros [= <- <-]. simpl. lia.
    - intros [= <- <-]. apply span_digits_length in Hs. lia. }
  destruct t as [|g t']; [by apply Hsign |].
  destruct ((g =? ch "-") || (g =? ch "+")); apply Hsign; simpl; lia.
Qed.

Lemma progress_weaken {A} (s s' : pystr) (m : scan A) :
  (length s' <= length s)%nat -> progress s' m -> progress s m.
Proof. destruct m; simpl; [lia | done | done | done]. Qed.

Lemma progress_and_then {A B} (s : pystr) (m : scan A) (k : A -> pystr -> scan B) :
  progress s m ->
  (forall a r, (length r < length s)%nat -> progress s (k a r)) ->
  progress s (and_then m k).
Proof. destruct m; simpl; [eauto | done | done | done]. Qed.

Lemma match_number_progress {py : interpreter} (s : pystr) :
  progress s (match_number s).
Proof.
  unfold match_number.
  set (p := match s with
            | c :: t => if c =? ch "-" then ([c], t) else ([], s)
            | [] => ([], s)
            end).
  assert (Hp : (length p.2 <= length s)%nat).
  { subst p. destruct s as [|c t]; simpl; [lia |].
    destruct (c =? ch "-"); simpl; lia. }
  destruct p as [sign s1]. simpl in Hp.
  destruct (match_integer s1) as [[int r0]|] eqn:Hint; [| done].
  apply match_integer_length in Hint.
  destruct (match_frac r0) as [frac r1] eqn:Hfrac.
  apply match_frac_length in Hfrac.
  destruct (match_exp r1) as [exp r2] eqn:Hexp.
  apply match_exp_length in Hexp.
  destruct frac, exp; simpl; try lia.
  destruct (too_many_digits _); simpl; [by left | lia].
Qed.

Lemma startswith_drop (s p : pystr) :
  startswith s p = true -> (length (drop (length p) s) + length p = length s)%nat.
Proof.
  intros [post ->]%startswith_spec.
  rewrite drop_app_length, length_app. lia.
Qed.

Lemma match_constant_progress {py : interpreter} (s : pystr) :
  progress s (match_constant s).
Proof.
  unfold match_constant.
  repeat match goal with
  | |- context [startswith s ?p] =>
    destruct (startswith s p) eqn:?;
    [ match goal with
      | Hp : startswith s p = true |- _ =>
        apply startswith_drop in Hp; simpl;
        vm_compute (length p) in Hp; lia
      end |]
  end.
  apply match_number_progress.
Qed.

Lemma scanstring_progress (begin : nat) (s : pystr) :
  forall chunks, progress s (scanstring begin chunks s).
Proof.
  assert (Hle : (length s <= length s)%nat) by lia.
  revert Hle. generalize (length s) at 2. intros n. revert s.
  induction n as [|n IH]; intros s Hle chunks.
  { destruct s; [done | simpl in Hle; lia]. }
  assert (Hrec : forall s' chunks', (length s' < length s)%nat ->
            progress s (scanstring begin chunks' s')).
  { intros s' chunks' Hs'. apply (progress_weaken _ s'); [lia |].
    apply IH. lia. }
  destruct s as [|c s1]; [done |]. cbn [scanstring].
  destruct (c =? 34); [simpl; lia |].
  destruct (c =? 92).
  2: { destruct (c <=? 31); [done |]. apply Hrec. simpl. lia. }
  destruct s1 as [|e s2]; [done |].
  destruct (e =? ch "u").
  2: { destruct (unescape e); [| done]. apply Hrec. simpl. lia. }
  destruct s2 as [|h1 [|h2 [|h3 [|h4 [|x s3]]]]]; try done.
  destruct (hex4 h1 h2 h3 h4) as [c1|]; [| done].
  assert (Hs3 : forall chunks' s3',
            (length s3' <= S (length s3))%nat ->
            progress (c :: e :: h1 :: h2 :: h3 :: h4 :: x :: s3)
              (scanstring begin chunks' s3')).
  { intros chunks' s3' Hs3'. apply Hrec. simpl. lia. }
  destruct s3 as [|u [|g1 [|g2 [|g3 [|g4 [|y s4]]]]]];
    try (apply Hs3; simpl; lia).
  destruct (is_high_surrogate c1 && (x =? 92) && (u =? ch "u"));
    [| apply Hs3; simpl; lia].
  destruct (hex4 g1 g2 g3 g4) as [c2|]; [| done].
  destruct (is_low_surrogate c2); [| apply Hs3; simpl; lia].
  apply Hrec. simpl. lia.
Qed.

(** With two units of fuel for each character left to read, a value is
    read or refused: the decoder never gives up. *)
Lemma scan_once_fuel {py : interpreter} (fuel : nat) :
  (forall depth s, (2 * length s < fuel)%nat ->
     progress s (scan_once fuel depth s)) /\
  (forall depth s pairs, (2 * length s + 1 < fuel)%nat ->
     progress s (parse_object fuel depth s pairs)) /\
  (forall depth s items, (2 * length s + 1 < fuel)%nat ->
     progress s (parse_array fuel depth s items)).
Proof.
  induction fuel as [|fuel (IHv & IHo & IHa)]; [repeat split; intros; lia |].
  repeat split.
  - intros depth [|c t] Hfuel; [done |]. cbn [scan_once]. simpl in Hfuel.
    destruct (c =? 34).
    { apply progress_and_then.
      - apply (progress_weaken _ t); [simpl; lia | apply scanstring_progress].
      - intros str r Hr. exact Hr. }
    pose proof (skip_ws_length t) as Hws.
    destruct (c =? ch "{").
    { destruct depth as [|depth]; [by right |].
      destruct (expect _ (skip_ws t)) as [r0|] eqn:Hexp.
      - apply expect_length in Hexp. simpl. lia.
      - apply (progress_weaken _ (skip_ws t)); [simpl; lia |]. apply IHo. lia. }
    destruct (c =? ch "[").
    { destruct depth as [|depth]; [by right |].
      destruct (expect _ (skip_ws t)) as [r0|] eqn:Hexp.
      - apply expect_length in Hexp. simpl. lia.
      - apply (progress_weaken _ (skip_ws t)); [simpl; lia |]. apply IHa. lia. }
    apply match_constant_progress.
  - intros depth s pairs Hfuel. cbn [parse_object].
    destruct (expect 34 s) as [t|] eqn:Hq; [| done].
    apply expect_length in Hq.
    apply progress_and_then.
    { apply (progress_weaken _ t); [lia | apply scanstring_progress]. }
    intros key r0 Hr0. pose proof (skip_ws_length r0) as Hws0.
    destruct (expect _ (skip_ws r0)) as [r1|] eqn:Hcolon; [| done].
    apply expect_length in Hcolon. pose proof (skip_ws_length r1) as Hws1.
    apply progress_and_then.
    { apply (progress_weaken _ (skip_ws r1)); [lia |]. apply IHv. lia. }
    intros val r2 Hr2. pose proof (skip_ws_length r2) as Hws2.
    destruct (expect (ch "}") (skip_ws r2)) as [r3|] eqn:Hclose.
    { apply expect_length in Hclose. simpl. lia. }
    destruct (expect (ch ",") (skip_ws r2)) as [r3|] eqn:Hcomma; [| done].
    apply expect_length in Hcomma. pose proof (skip_ws_length r3) as Hws3.
    apply (progress_weaken _ (skip_ws r3)); [lia |]. apply IHo. lia.
  - intros depth s items Hfuel. cbn [parse_array].
    apply progress_and_then; [apply IHv; lia |].
    intros val r0 Hr0. pose proof (skip_ws_length r0) as Hws0.
    destruct (expect (ch "]") (skip_ws r0)) as [r1|] eqn:Hclose.
    { apply expect_length in Hclose. simpl. lia. }
    destruct (expect (ch ",") (skip_ws r0)) as [r1|] eqn:Hcomma; [| done].
    apply expect_length in Hcomma. pose proof (skip_ws_length r1) as Hws1.
    apply (progress_weaken _ (skip_ws r1)); [lia |]. apply IHa. lia.
Qed.

(** [json.loads] returns a value, raises [JSONDecodeError] or runs into a
    limit of the interpreter. *)
Lemma decode_total {py : interpreter} (s : pystr) :
  (exists data, decode s = Val data) \/
  (exists msg pos, decode s = Raise (JSONDecodeError msg s pos)) \/
  decode s = Raise ValueError \/ decode s = Raise RecursionError.
Proof.
  unfold decode. destruct (startswith s [65279]); [right; left; eauto |].
  unfold scan_document.
  pose proof (proj1 (scan_once_fuel (fuel_for s)) max_nesting (skip_ws s)) as Hv.
  pose proof (skip_ws_length s) as Hws.
  unfold fuel_for in *. specialize (Hv ltac:(lia)).
  destruct (scan_once _ _ (skip_ws s)) as [obj r| |e|]; simpl.
  - destruct (skip_ws r); [left; eauto | right; left; eauto].
  - right; left; eauto.
  - right; right. simpl in Hv. destruct Hv as [-> | ->]; [by left | by right].
  - done.
Qed.

Lemma isspace_bounds (c : Z) : isspace c = true -> c <= 32 \/ 133 <= c.
Proof.
  unfold isspace. intros Hc.
  destruct (Z.leb_spec c 32); [by left |].
  destruct (Z.leb_spec 133 c); [by right |].
  repeat (apply orb_prop in Hc as [Hc | Hc]);
    repeat (apply andb_prop in Hc as [? ?]); lia.
Qed.

Lemma startswith_head_ne (c p : Z) (t ps : pystr) :
  c <> p -> startswith (c :: t) (p :: ps) = false.
Proof. intros Hne. simpl. by destruct (Z.eqb_spec c p). Qed.

(** No value starts with a control character, a space or a character
    above U+0084. *)
Lemma scan_once_refuses {py : interpreter} (fuel depth : nat) (c : Z) (t : pystr) :
  c <= 32 \/ 133 <= c ->
  scan_once (S fuel) depth (c :: t) = Err expecting_value (S (length t)).
Proof.
  intros Hc. cbn [scan_once].
  unfold match_constant, match_number, match_integer, expecting_value.
  eval_literals.
  repeat match goal with
  | |- context [?a =? ?b] => destruct (Z.eqb_spec a b); [lia |]
  end.
  rewrite !startswith_head_ne by lia.
  destruct (Z.leb_spec 49 c), (Z.leb_spec c 57); simpl; try lia; reflexivity.
Qed.

(** A document of white space only is refused. *)
Lemma decode_blank {py : interpreter} (s : pystr) :
  blank s -> exists msg pos, decode s = Raise (JSONDecodeError msg s pos).
Proof.
  intros Hs. unfold decode.
  destruct (startswith s [65279]); [eauto |].
  unfold scan_document, fuel_for.
  apply skip_ws_blank in Hs.
  replace (2 * length s + 2)%nat with (S (2 * length s + 1)) by lia.
  destruct (skip_ws s) as [|c t]; [by simpl; eauto |].
  rewrite scan_once_refuses; [by simpl; eauto |].
  apply isspace_bounds. by inversion Hs.
Qed.

(** ** The schema validator *)

Lemma truthy_strip (s : pystr) : truthy (strip s) = false <-> blank s.
Proof. rewrite <- strip_nil. by destruct (strip s). Qed.

Lemma not_blank_strip (s : pystr) : ~ blank s -> truthy (strip s) = true.
Proof.
  intros Hs. destruct (truthy (strip s)) eqn:Ht; [done |].
  by apply truthy_strip in Ht.
Qed.

Lemma decoded_not_blank {py : interpreter} (s : pystr) data :
  decode s = Val data -> ~ blank s.
Proof. intros Hd (msg & pos & Hs)%decode_blank. congruence. Qed.

(** Blank message: one line, and the decoder is not called. *)
Lemma schema_run_blank {py : interpreter} (env : gmap pystr pystr) :
  blank (message_of env) ->
  run Schema.main env = printed (lit "No output received from AI") /\
  run_decoded Schema.main env = [].
Proof.
  intros Hb%truthy_strip. schema_steps env. by rewrite Hb.
Qed.

(** A document the decoder refuses: the handler prints the error. *)
Lemma schema_run_refused {py : interpreter} (env : gmap pystr pystr) msg doc pos :
  ~ blank (message_of env) ->
  decode (message_of env) = Raise (JSONDecodeError msg doc pos) ->
  run Schema.main env =
    printed (lit "Output is not valid JSON: " ++ errmsg msg doc pos).
Proof.
  intros Hb%not_blank_strip Hd. schema_steps env. by rewrite Hb, Hd.
Qed.

(** A decoded document on which every membership test answers. *)
Lemma schema_run_checked {py : interpreter} (env : gmap pystr pystr) data missing :
  decode (message_of env) = Val data ->
  Schema.missing_fields data Schema.required = Val missing ->
  run Schema.main env =
    printed (if truthy missing
             then lit "Missing required fields: " ++ join (lit ", ") missing
             else lit "true").
Proof.
  intros Hd Hm. pose proof (decoded_not_blank _ _ Hd) as Hb%not_blank_strip.
  schema_steps env. rewrite Hb, Hd, Hm. by destruct (truthy missing).
Qed.

(** A decoded document on which a membership test raises: nothing is
    printed and the exception ends the process. *)
Lemma schema_run_raised {py : interpreter} (env : gmap pystr pystr) data tp :
  decode (message_of env) = Val data ->
  Schema.missing_fields data Schema.required = Raise (TypeError tp) ->
  run Schema.main env = Outcome [] 1 (Some (TypeError tp)).
Proof.
  intros Hd Hm. pose proof (decoded_not_blank _ _ Hd) as Hb%not_blank_strip.
  schema_steps env. by rewrite Hb, Hd, Hm.
Qed.

(** A document on which the decoder runs into a limit of the interpreter:
    the exception is no [JSONDecodeError], the handler lets it pass. *)
Lemma schema_run_limit {py : interpreter} (env : gmap pystr pystr) (e : exn) :
  decode (message_of env) = Raise e ->
  e = ValueError \/ e = RecursionError ->
  run Schema.main env = Outcome [] 1 (Some e).
Proof.
  intros Hd He.
  assert (Hb : ~ blank (message_of env)).
  { intros (msg & pos & Hs)%decode_blank. rewrite Hs in Hd.
    destruct He as [-> | ->]; discriminate Hd. }
  apply not_blank_strip in Hb. schema_steps env. rewrite Hb, Hd.
  by destruct He as [-> | ->].
Qed.

(** *** Membership *)

Lemma is_str_spec (f : pystr) (v : value) : is_str f v = true <-> v = JStr f.
Proof.
  destruct v; simpl; try (split; [done | intros [=]]).
  unfold str_eqb. rewrite bool_decide_eq_true. split; congruence.
Qed.

Lemma contains_container (data : value) (f : pystr) :
  container data ->
  exists b, contains data f = Val b /\ (b = true <-> member f data).
Proof.
  destruct data as [| | | |s|items|pairs]; simpl; try done; intros _.
  - eexists. split; [done |]. apply str_contains_spec.
  - eexists. split; [done |]. rewrite existsb_exists. split.
    + intros (v & Hin & ->%is_str_spec). by apply list_elem_of_In.
    + intros Hin. exists (JStr f). split; [by apply list_elem_of_In |].
      by apply is_str_spec.
  - eexists. split; [done |]. apply bool_decide_eq_true.
Qed.

Lemma contains_scalar (data : value) (f : pystr) :
  ~ container data -> exists tp, contains data f = Raise (TypeError tp).
Proof. destruct data; simpl; intros Hc; try (by destruct Hc); eauto. Qed.

(** The comprehension keeps, in order, the fields that are no members. *)
Lemma missing_fields_container (data : value) (fields : list pystr) :
  container data ->
  exists missing,
    Schema.missing_fields data fields = Val missing /\
    sublist missing fields /\
    forall f, f ∈ missing <-> f ∈ fields /\ ~ member f data.
Proof.
  intros Hc. induction fields as [|f fields (rest & Hrest & Hsub & Hin)].
  - exists []. split; [done |]. split; [constructor |].
    intros f. rewrite elem_of_nil. tauto.
  - destruct (contains_container data f Hc) as (b & Hb & Hmem).
    cbn [Schema.missing_fields]. rewrite Hb, Hrest. cbn.
    destruct b; cbn.
    + exists rest. split; [done |]. split; [by constructor |].
      intros g. rewrite Hin, elem_of_cons. split; [tauto |].
      intros [[-> | Hg] Hng]; [| done]. destruct Hng. by apply Hmem.
    + exists (f :: rest). split; [done |]. split; [by constructor |].
      intros g. rewrite !elem_of_cons, Hin. split; [| tauto].
      intros [-> | Hg]; [| tauto]. split; [by left |].
      intros Hf%Hmem. done.
Qed.

Lemma missing_fields_scalar (data : value) :
  ~ container data ->
  exists tp, Schema.missing_fields data Schema.required = Raise (TypeError tp).
Proof.
  intros Hc. destruct (contains_scalar data (lit "name") Hc) as [tp Htp].
  exists tp. unfold Schema.required. cbn [Schema.missing_fields].
  by rewrite Htp.
Qed.

(** ** The keyword validator *)

Section KeywordFacts.
Context {db : unicode_db}.

Lemma any_keyword (message : pystr) :
  existsb (fun keyword => str_contains (lower message) (lower keyword))
    Keyword.keywords = true <-> mentions_keyword message.
Proof.
  rewrite existsb_exists. unfold mentions_keyword, occurs_in.
  split; intros (k & Hk & Hocc); exists k.
  - split; [by apply list_elem_of_In | by apply str_contains_spec].
  - split; [by apply list_elem_of_In | by apply str_contains_spec].
Qed.

Lemma keyword_run_empty (env : gmap pystr pystr) :
  message_of env = [] ->
  run Keyword.main env = printed (lit "No AI response received").
Proof. intros Hm. keyword_steps env. by rewrite Hm. Qed.

Lemma keyword_run_found (env : gmap pystr pystr) :
  message_of env <> [] ->
  mentions_keyword (message_of env) ->
  run Keyword.main env = printed (lit "true").
Proof.
  intros Hm Hk%any_keyword. keyword_steps env. rewrite Hk.
  by destruct (message_of env).
Qed.

Lemma keyword_run_not_found (env : gmap pystr pystr) :
  message_of env <> [] ->
  ~ mentions_keyword (message_of env) ->
  run Keyword.main env =
    printed (lit "Expected keywords but got: " ++ take 200 (message_of env) ++
             lit "...").
Proof.
  intros Hm Hk. keyword_steps env.
  destruct (existsb _ Keyword.keywords) eqn:Hany.
  { by apply any_keyword in Hany. }
  by destruct (message_of env).
Qed.
End KeywordFacts.

(** ** Runs of the schema validator on decoded documents *)

Lemma schema_run_all_members {py : interpreter} (env : gmap pystr pystr) (data : value) :
  decode (message_of env) = Val data ->
  container data ->
  (forall f, f ∈ Schema.required -> member f data) ->
  run Schema.main env = printed (lit "true").
Proof.
  intros Hd Hc Hall.
  destruct (missing_fields_container data Schema.required Hc)
    as (missing & Hm & _ & Hin).
  rewrite (schema_run_checked env data missing Hd Hm).
  destruct missing as [|f missing]; [done |].
  assert (Hfm : f ∈ f :: missing) by (by left).
  apply Hin in Hfm as [Hf Hnf]. destruct Hnf. by apply Hall.
Qed.

Lemma schema_run_some_missing {py : interpreter} (env : gmap pystr pystr) (data : value) :
  decode (message_of env) = Val data ->
  container data ->
  (exists f, f ∈ Schema.required /\ ~ member f data) ->
  exists missing,
    run Schema.main env =
      printed (lit "Missing required fields: " ++ join (lit ", ") missing) /\
    sublist missing Schema.required /\
    forall f, f ∈ missing <-> f ∈ Schema.required /\ ~ member f data.
Proof.
  intros Hd Hc (f & Hf & Hnf).
  destruct (missing_fields_container data Schema.required Hc)
    as (missing & Hm & Hsub & Hin).
  exists missing. split; [| done].
  rewrite (schema_run_checked env data missing Hd Hm).
  destruct missing as [|g missing]; [| done].
  assert (Hfm : f ∈ @nil pystr) by (by apply Hin).
  by apply elem_of_nil in Hfm.
Qed.

Lemma schema_run_scalar {py : interpreter} (env : gmap pystr pystr) (data : value) :
  decode (message_of env) = Val data ->
  ~ container data ->
  exists tp, run Schema.main env = Outcome [] 1 (Some (TypeError tp)).
Proof.
  intros Hd Hc. destruct (missing_fields_scalar data Hc) as [tp Hm].
  exists tp. by apply (schema_run_raised env data).
Qed.

(** ** Runs that differ in the rest of the environment *)

Lemma schema_run_message {py : interpreter} (env1 env2 : gmap pystr pystr) :
  message_of env1 = message_of env2 ->
  run Schema.main env1 = run Schema.main env2.
Proof.
  intros Heq.
  destruct (decide (blank (message_of env1))) as [Hb | Hb].
  { rewrite (proj1 (schema_run_blank env1 Hb)).
    rewrite Heq in Hb. by rewrite (proj1 (schema_run_blank env2 Hb)). }
  destruct (decode_total (message_of env1))
    as [[data Hd] | [(msg & pos & Hd) | Hd]].
  - destruct (decide (container data)) as [Hc | Hc].
    + destruct (missing_fields_container data Schema.required Hc)
        as (missing & Hm & _).
      rewrite (schema_run_checked env1 data missing Hd Hm).
      rewrite Heq in Hd. by rewrite (schema_run_checked env2 data missing Hd Hm).
    + destruct (missing_fields_scalar data Hc) as [tp Hm].
      rewrite (schema_run_raised env1 data tp Hd Hm).
      rewrite Heq in Hd. by rewrite (schema_run_raised env2 data tp Hd Hm).
  - rewrite (schema_run_refused env1 _ _ _ Hb Hd).
    rewrite Heq in Hb, Hd |- *. by rewrite (schema_run_refused env2 _ _ _ Hb Hd).
  - destruct Hd as [Hd | Hd].
    + rewrite (schema_run_limit env1 _ Hd) by (by left).
      rewrite Heq in Hd. by rewrite (schema_run_limit env2 _ Hd) by (by left).
    + rewrite (schema_run_limit env1 _ Hd) by (by right).
      rewrite Heq in Hd. by rewrite (schema_run_limit env2 _ Hd) by (by right).
Qed.

Lemma keyword_run_message {db : unicode_db} (env1 env2 : gmap pystr pystr) :
  message_of env1 = message_of env2 ->
  run Keyword.main env1 = run Keyword.main env2.
Proof.
  intros Heq.
  destruct (decide (message_of env1 = [])) as [Hm | Hm].
  { rewrite (keyword_run_empty env1 Hm).
    rewrite Heq in Hm. by rewrite (keyword_run_empty env2 Hm). }
  destruct (existsb (fun keyword =>
              str_contains (lower (message_of env1)) (lower keyword))
              Keyword.keywords) eqn:Hany.
  - apply any_keyword in Hany. rewrite (keyword_run_found env1 Hm Hany).
    rewrite Heq in Hm, Hany. by rewrite (keyword_run_found env2 Hm Hany).
  - assert (Hno : ~ mentions_keyword (message_of env1)).
    { intros Hk%any_keyword. congruence. }
    rewrite (keyword_run_not_found env1 Hm Hno).
    rewrite Heq in Hm, Hno. rewrite (keyword_run_not_found env2 Hm Hno).
    by rewrite Heq.
Qed.

(** ** White space and the keywords *)

Section BlankLower.
Context {db : unicode_db}.

(** No white space character has a lower-case mapping. *)
Hypothesis space_lower :
  forall c, isspace c = true -> 128 <= c -> to_lower_full c = [c].

Lemma lower_ucs4_space (before after : pystr) (c : Z) :
  isspace c = true -> lower_ucs4 before c after = [c].
Proof.
  intros Hc. unfold lower_ucs4, ascii_lower.
  pose proof (isspace_bounds c Hc) as Hb.
  destruct (Z.leb_spec 0 c), (Z.ltb_spec c 128); cbn [andb].
  - destruct (Z.leb_spec 65 c), (Z.leb_spec c 90); cbn [andb]; try done; lia.
  - destruct (Z.eqb_spec c 931) as [-> | _]; [done |].
    by apply space_lower.
  - assert (Hneg : isspace c = false); [| congruence].
    unfold isspace.
    repeat match goal with
    | |- context [?a <=? ?b] => destruct (Z.leb_spec a b); try lia
    | |- context [?a =? ?b] => destruct (Z.eqb_spec a b); try lia
    end; reflexivity.
  - lia.
Qed.

Lemma do_lower_blank (s : pystr) :
  blank s -> forall before, do_lower before s = s.
Proof.
  induction 1 as [|c s Hc Hs IH]; intros before; cbn [do_lower]; [done |].
  by rewrite lower_ucs4_space, IH.
Qed.

Lemma blank_no_keyword (s : pystr) : blank s -> ~ mentions_keyword s.
Proof.
  intros Hs (k & Hk & pre & post & Hocc).
  unfold lower in Hocc at 1. rewrite (do_lower_blank s Hs) in Hocc.
  rewrite Hocc in Hs. unfold blank in Hs.
  apply Forall_app in Hs as [_ Hs]. apply Forall_app in Hs as [Hs _].
  repeat (apply elem_of_cons in Hk as [-> | Hk]);
    try (apply Forall_inv in Hs; vm_compute in Hs; discriminate Hs).
  by apply elem_of_nil in Hk.
Qed.
End BlankLower.

(** ** The keyword validator, by cases *)

Lemma keyword_run_cases {db : unicode_db} (env : gmap pystr pystr) :
  (message_of env = [] /\
   run Keyword.main env = printed (lit "No AI response received")) \/
  (message_of env <> [] /\ mentions_keyword (message_of env) /\
   run Keyword.main env = printed (lit "true")) \/
  (message_of env <> [] /\ ~ mentions_keyword (message_of env) /\
   run Keyword.main env =
     printed (lit "Expected keywords but got: " ++ take 200 (message_of env) ++
              lit "...")).
Proof.
  destruct (decide (message_of env = [])) as [Hm | Hm].
  { left. split; [done |]. by apply keyword_run_empty. }
  destruct (existsb (fun keyword =>
              str_contains (lower (message_of env)) (lower keyword))
              Keyword.keywords) eqn:Hany.
  - apply any_keyword in Hany. right; left.
    repeat split; try done. by apply keyword_run_found.
  - assert (Hno : ~ mentions_keyword (message_of env)).
    { intros Hk%any_keyword. congruence. }
    right; right. repeat split; try done. by apply keyword_run_not_found.
Qed.

(** ** Letter case in the keyword validator *)

(** Lower-casing what follows a text does not depend on how the text
    itself is lower-cased. *)
Lemma do_lower_app {db : unicode_db} (before a b : pystr) :
  exists low, do_lower before (a ++ b) = low ++ do_lower (rev a ++ before) b.
Proof.
  revert before. induction a as [|c a IH]; intros before.
  - by exists [].
  - destruct (IH (c :: before)) as [low Hlow].
    exists (lower_ucs4 before c (a ++ b) ++ low).
    cbn [app do_lower rev]. rewrite Hlow, <- !app_assoc. reflexivity.
Qed.

(** ASCII text is lower-cased letter by letter, whatever surrounds it. *)
Lemma do_lower_ascii_app {db : unicode_db} (before w post : pystr) :
  Forall (fun c => 0 <= c < 128) w ->
  do_lower before (w ++ post) =
    (ascii_lower <$> w) ++ do_lower (rev w ++ before) post.
Proof.
  intros Hw. revert before. induction Hw as [|c w Hc Hw IH]; intros before.
  - reflexivity.
  - cbn [app do_lower rev fmap list_fmap]. rewrite IH, <- !app_assoc.
    unfold lower_ucs4.
    destruct (Z.leb_spec 0 c), (Z.ltb_spec c 128); try lia. reflexivity.
Qed.

Lemma lower_ascii {db : unicode_db} (w : pystr) :
  Forall (fun c => 0 <= c < 128) w -> lower w = ascii_lower <$> w.
Proof.
  intros Hw. unfold lower.
  rewrite <- (app_nil_r w) at 1. rewrite do_lower_ascii_app by done.
  cbn [do_lower]. by rewrite app_nil_r.
Qed.

Lemma ascii_lower_range (c : Z) :
  0 <= ascii_lower c < 128 -> 0 <= c < 128.
Proof.
  unfold ascii_lower.
  destruct (Z.leb_spec 65 c), (Z.leb_spec c 90); cbn [andb]; lia.
Qed.

(** The keywords are ASCII, in lower case and not empty. *)
Lemma keywords_plain {db : unicode_db} (k : pystr) :
  k ∈ Keyword.keywords ->
  lower k = k /\ k <> [] /\ Forall (fun c => 0 <= c < 128) k.
Proof.
  intros Hk. unfold Keyword.keywords in Hk.
  repeat (apply elem_of_cons in Hk as [-> | Hk]);
    try (by apply elem_of_nil in Hk);
    (split; [reflexivity |]; split; [discriminate |];
     eval_literals; repeat (constructor; [lia |]); constructor).
Qed.

Lemma keyword_true_iff {db : unicode_db} (env : gmap pystr pystr) :
  run Keyword.main env = printed (lit "true") <->
  message_of env <> [] /\ mentions_keyword (message_of env).
Proof.
  split.
  - intros Htrue.
    destruct (keyword_run_cases env)
      as [[_ Hrun] | [(Hm & Hk & _) | (_ & _ & Hrun)]]; [| done |];
      rewrite Hrun in Htrue.
    + vm_compute in Htrue. discriminate Htrue.
    + apply (f_equal output) in Htrue. cbn in Htrue. discriminate Htrue.
  - intros [Hm Hk]. by apply keyword_run_found.
Qed.

(** *** Case folding character by character

    [str.lower()] and [casefold] differ only where a capital sigma stands:
    both put a character above U+007F there, which no keyword contains. *)

Definition alike (a b : Z) : Prop := a = b \/ (128 <= a /\ 128 <= b).

Lemma alike_refl (l : pystr) : Forall2 alike l l.
Proof. apply Forall_Forall2_diag, Forall_forall. intros c _. by left. Qed.

Lemma lower_ucs4_fold_char {db : unicode_db} (before after : pystr) (c : Z) :
  Forall2 alike (lower_ucs4 before c after) (fold_char c).
Proof.
  unfold lower_ucs4, fold_char, ascii_lower, handle_capital_sigma.
  destruct ((65 <=? c) && (c <=? 90)) eqn:Hcap.
  - apply andb_prop in Hcap as [H65%Z.leb_le H90%Z.leb_le].
    destruct (Z.leb_spec 0 c), (Z.ltb_spec c 128); try lia.
    apply alike_refl.
  - destruct ((0 <=? c) && (c <? 128)); [apply alike_refl |].
    destruct (c =? 931); [| apply alike_refl].
    destruct (cased_first before && negb (cased_first after));
      (constructor; [right; lia | constructor]).
Qed.

Lemma do_lower_casefold {db : unicode_db} (before s : pystr) :
  Forall2 alike (do_lower before s) (casefold s).
Proof.
  revert before. induction s as [|c s IH]; intros before; [constructor |].
  cbn [do_lower casefold fmap list_fmap concat].
  apply Forall2_app; [apply lower_ucs4_fold_char | apply IH].
Qed.

Lemma alike_ascii_l (k l : pystr) :
  Forall (fun c => 0 <= c < 128) k -> Forall2 alike k l -> l = k.
Proof.
  intros Hk Hkl. induction Hkl as [|a b k l Hab Hkl IH]; [done |].
  apply Forall_cons in Hk as [Ha Hk]. rewrite IH by done.
  destruct Hab as [-> | Hab]; [done | lia].
Qed.

Lemma alike_ascii_r (k l : pystr) :
  Forall (fun c => 0 <= c < 128) k -> Forall2 alike l k -> l = k.
Proof.
  intros Hk Hkl. induction Hkl as [|a b l k Hab Hkl IH]; [done |].
  apply Forall_cons in Hk as [Hb Hk]. rewrite IH by done.
  destruct Hab as [-> | Hab]; [done | lia].
Qed.

(** An ASCII text occurs in both of two texts that are alike, or in
    neither. *)
Lemma occurs_alike (k x y : pystr) :
  Forall (fun c => 0 <= c < 128) k ->
  Forall2 alike x y ->
  occurs_in k x <-> occurs_in k y.
Proof.
  intros Hk Hxy. split; intros (pre & post & ->).
  - apply Forall2_app_inv_l in Hxy as (pre' & rest & _ & Hrest & ->).
    apply Forall2_app_inv_l in Hrest as (k' & post' & Hk' & _ & ->).
    apply (alike_ascii_l k) in Hk' as ->; [| done]. by exists pre', post'.
  - apply Forall2_app_inv_r in Hxy as (pre' & rest & _ & Hrest & ->).
    apply Forall2_app_inv_r in Hrest as (k' & post' & Hk' & _ & ->).
    apply (alike_ascii_r k) in Hk' as ->; [| done]. by exists pre', post'.
Qed.

(** The search of the script finds a keyword exactly when one occurs in
    the case-folded message. *)
Lemma mentions_caseless {db : unicode_db} (message : pystr) :
  mentions_keyword message <-> caseless_keyword message.
Proof.
  unfold mentions_keyword, caseless_keyword.
  split; intros (k & Hk & Hocc); exists k; (split; [done |]);
    destruct (keywords_plain k Hk) as (Hlow & _ & Hascii).
  - rewrite Hlow in Hocc.
    by apply (occurs_alike k _ _ Hascii (do_lower_casefold [] message)).
  - rewrite Hlow.
    by apply (occurs_alike k _ _ Hascii (do_lower_casefold [] message)).
Qed.

(** ** Documents nested too deeply *)

Lemma message_of_env_with (message : pystr) :
  message_of (env_with message) = message.
Proof. unfold message_of, env_with. by rewrite lookup_singleton_eq. Qed.

Lemma scan_once_too_deep {py : interpreter} (depth : nat) :
  forall fuel rest,
    (2 * depth < fuel)%nat ->
    scan_once fuel depth (replicate (S depth) (ch "[") ++ rest) =
      Fail RecursionError.
Proof.
  induction depth as [|depth IH]; intros fuel rest Hfuel.
  - destruct fuel as [|fuel]; [lia |]. reflexivity.
  - destruct fuel as [|[|fuel]]; try lia.
    change (replicate (S (S depth)) (ch "[") ++ rest)
      with (ch "[" :: (replicate (S depth) (ch "[") ++ rest)).
    cbn [scan_once]. change (ch "[" =? 34) with false.
    change (ch "[" =? ch "{") with false. change (ch "[" =? ch "[") with true.
    cbn match.
    change (skip_ws (replicate (S depth) (ch "[") ++ rest))
      with (replicate (S depth) (ch "[") ++ rest).
    change (expect (ch "]") (replicate (S depth) (ch "[") ++ rest))
      with (@None pystr).
    cbn [parse_array]. rewrite IH by lia. reflexivity.
Qed.

Lemma decode_too_deep {py : interpreter} :
  decode (replicate (S max_nesting) (ch "[")) = Raise RecursionError.
Proof.
  unfold decode. change (startswith _ [65279]) with false.
  unfold scan_document, fuel_for.
  change (skip_ws (replicate (S max_nesting) (ch "[")))
    with (replicate (S max_nesting) (ch "[")).
  rewrite <- (app_nil_r (replicate (S max_nesting) (ch "["))) at 2.
  rewrite scan_once_too_deep; [reflexivity |].
  rewrite length_replicate. lia.
Qed.

(** * The examples of the specification *)

Example schema_example_all_fields :
  run (Schema.main (py := cpython))
    (env_with (qlit "{'name':'a','description':'b','language':'c'}")) =
  printed (lit "true").
Proof. vm_compute. reflexivity. Qed.

Example schema_example_missing :
  run (Schema.main (py := cpython)) (env_with (qlit "{'name':'a'}")) =
  printed (lit "Missing required fields: description, language").
Proof. vm_compute. reflexivity. Qed.

Example schema_example_not_json :
  run (Schema.main (py := cpython)) (env_with (lit "not json")) =
  printed (lit "Output is not valid JSON: Expecting value: line 1 column 1 (char 0)").
Proof. vm_compute. reflexivity. Qed.

Example schema_example_empty :
  run (Schema.main (py := cpython)) (env_with (lit "")) = printed (lit "No output received from AI").
Proof. vm_compute. reflexivity. Qed.

Example keyword_example_found :
  run (Keyword.main (db := plain_db))
    (env_with (lit "Created a new test.py file")) = printed (lit "true").
Proof. vm_compute. reflexivity. Qed.

Example keyword_example_not_found :
  run (Keyword.main (db := plain_db)) (env_with (lit "xyz abc 123")) =
  printed (lit "Expected keywords but got: xyz abc 123...").
Proof. vm_compute. reflexivity. Qed.

Example keyword_example_empty :
  run (Keyword.main (db := plain_db)) (env_with (lit "")) =
  Outcome (lit "No AI response received" ++ [10]) 0 None.
Proof. vm_compute. reflexivity. Qed.

(** A JSON string in which the three names occur passes the key check. *)
Example schema_example_string :
  decode (py := cpython) (qlit "'name description language'") =
    Val (JStr (lit "name description language")) /\
  run (Schema.main (py := cpython)) (env_with (qlit "'name description language'")) =
    printed (lit "true").
Proof. split; vm_compute; reflexivity. Qed.

(** The other scalars end the schema validator like an int does. *)
Example schema_example_scalars :
  run (Schema.main (py := cpython)) (env_with (lit "null")) =
    Outcome [] 1 (Some (TypeError (lit "NoneType"))) /\
  run (Schema.main (py := cpython)) (env_with (lit "true")) =
    Outcome [] 1 (Some (TypeError (lit "bool"))) /\
  run (Schema.main (py := cpython)) (env_with (lit "2.5")) =
    Outcome [] 1 (Some (TypeError (lit "float"))).
Proof. split; [| split]; vm_compute; reflexivity. Qed.

(** An escape whose four digits end the document is refused as an
    escape. *)
Example schema_example_escape :
  run (Schema.main (py := cpython)) (env_with (34 :: lit "\u0041")) =
  printed (lit "Output is not valid JSON: Invalid \uXXXX escape: line 1 column 3 (char 2)").
Proof. vm_compute. reflexivity. Qed.

(** The limits of the interpreter: 1500 brackets, and an array that holds
    an integer of 4301 digits. *)
Example schema_example_limits :
  run (Schema.main (py := cpython)) (env_with (replicate 1500 (ch "["))) =
    Outcome [] 1 (Some RecursionError) /\
  run (Schema.main (py := cpython))
    (env_with (lit "[" ++ replicate 4301 (ch "1") ++ lit "]")) =
    Outcome [] 1 (Some ValueError) /\
  run (Schema.main (py := cpython))
    (env_with (lit "[" ++ replicate 4300 (ch "1") ++ lit "]")) =
    printed (lit "Missing required fields: name, description, language").
Proof. split; [| split]; vm_compute; reflexivity. Qed.

(** * The claims *)

(** C1, schema validator, as the code runs it at the failing input: the
    message [1] is a JSON document, [json.loads] returns the int 1, and the
    first membership test [f not in data] raises [TypeError].  The handler
    catches [JSONDecodeError] only, so the exception reaches the top:
    nothing is printed and the exit status is 1, where the claim promises
    one output line and status 0. *)
Theorem schema_scalar_document_uncaught :
  decode (py := cpython) (lit "1") = Val (JInt 1) /\
  run (Schema.main (py := cpython)) (env_with (lit "1")) =
    Outcome [] 1 (Some (TypeError (lit "int"))).
Proof. split; vm_compute; reflexivity. Qed.

(** C2: on a message that is not empty the keyword validator prints
    [true] exactly when one of file, directory, hello, hi, test, workflow,
    .md, .py, .js occurs in the message with letter case set aside, that
    is, in the message folded to lower case character by character
    ([casefold], which does not go through the script's [lower]);
    otherwise it prints [Expected keywords but got: ], the first 200
    characters of the message as they are and [...]. *)
Theorem keyword_validator_output {db : unicode_db} (env : gmap pystr pystr) :
  message_of env <> [] ->
  (run Keyword.main env = printed (lit "true") <->
     caseless_keyword (message_of env)) /\
  (~ caseless_keyword (message_of env) ->
     run Keyword.main env =
       printed (lit "Expected keywords but got: " ++
                take 200 (message_of env) ++ lit "...")).
Proof.
  intros Hm. split.
  - rewrite keyword_true_iff, mentions_caseless. tauto.
  - intros Hno. apply keyword_run_not_found; [done |].
    by rewrite mentions_caseless.
Qed.

(** [HELLO] in capitals is found; [HELP] is not a keyword. *)
Lemma keyword_validator_output_witness :
  run (Keyword.main (db := plain_db)) (env_with (lit "Say HELLO")) =
    printed (lit "true") /\
  run (Keyword.main (db := plain_db)) (env_with (lit "HELP")) =
    printed (lit "Expected keywords but got: HELP...").
Proof.
  split.
  - apply (keyword_validator_output (db := plain_db)
             (env_with (lit "Say HELLO"))); [vm_compute; discriminate |].
    exists (lit "hello"). split; [vm_compute; repeat constructor |].
    exists (lit "say "), []. vm_compute. reflexivity.
  - apply (keyword_validator_output (db := plain_db) (env_with (lit "HELP")));
      [vm_compute; discriminate |].
    intros (k & Hk & Hocc).
    assert (Hfound : str_contains (casefold (db := plain_db)
                       (message_of (env_with (lit "HELP")))) k = true)
      by (by apply str_contains_spec).
    repeat (apply elem_of_cons in Hk as [-> | Hk]);
      try (vm_compute in Hfound; discriminate Hfound).
    by apply elem_of_nil in Hk.
Defined.

(** C3 as stated fails: the document ["name","description","language"]
    is JSON and, being an array, has none of the three keys, yet the
    validator prints [true]. *)
Lemma schema_missing_keys_counterexample :
  ~ (forall (py : interpreter) env data,
       decode (message_of env) = Val data ->
       (exists f, f ∈ Schema.required /\ f ∉ keys_of data) ->
       run Schema.main env =
         printed (lit "Missing required fields: " ++
                  join (lit ", ")
                    (filter (fun f => f ∉ keys_of data) Schema.required))).
Proof.
  intros Hclaim.
  specialize (Hclaim cpython (env_with (qlit "['name','description','language']"))
                (JList [JStr (lit "name"); JStr (lit "description");
                        JStr (lit "language")])).
  assert (Hrun : run (Schema.main (py := cpython))
            (env_with (qlit "['name','description','language']")) =
          printed (lit "true")) by (vm_compute; reflexivity).
  rewrite Hrun in Hclaim.
  assert (Heq : printed (lit "true") =
                printed (lit "Missing required fields: name, description, language")).
  { apply Hclaim; [vm_compute; reflexivity |].
    exists (lit "name"). split; [by left | apply not_elem_of_nil]. }
  vm_compute in Heq. discriminate Heq.
Qed.

(** C3, amended: when the message decodes to an object, an array or a
    string and at least one of name, description, language is no member of
    it (no key of the object, no item of the array, no part of the string),
    the validator prints [Missing required fields: ] and, separated by
    comma and space, exactly the names that are no members, in the order
    name, description, language. *)
Theorem schema_missing_members {py : interpreter} (env : gmap pystr pystr) (data : value) :
  decode (message_of env) = Val data ->
  container data ->
  (exists f, f ∈ [lit "name"; lit "description"; lit "language"] /\
             ~ member f data) ->
  exists missing,
    run Schema.main env =
      printed (lit "Missing required fields: " ++ join (lit ", ") missing) /\
    sublist missing [lit "name"; lit "description"; lit "language"] /\
    forall f, f ∈ missing <->
              f ∈ [lit "name"; lit "description"; lit "language"] /\
              ~ member f data.
Proof. apply schema_run_some_missing. Qed.

Lemma schema_missing_members_witness :
  exists missing,
    run (Schema.main (py := cpython)) (env_with (qlit "{'name':'a'}")) =
      printed (lit "Missing required fields: " ++ join (lit ", ") missing) /\
    sublist missing [lit "name"; lit "description"; lit "language"] /\
    forall f, f ∈ missing <->
              f ∈ [lit "name"; lit "description"; lit "language"] /\
              ~ member f (JDict [(lit "name", JStr (lit "a"))]).
Proof.
  apply (schema_missing_members (env_with (qlit "{'name':'a'}"))
           (JDict [(lit "name", JStr (lit "a"))])).
  - vm_compute. reflexivity.
  - exact I.
  - exists (lit "language"). split; [vm_compute; repeat constructor |].
    intros Hin%list_elem_of_singleton. vm_compute in Hin. discriminate Hin.
Defined.

(** C4: when the message decodes to an object that has the three keys
    name, description and language, the validator prints [true]. *)
Theorem schema_all_keys_true {py : interpreter} (env : gmap pystr pystr) pairs :
  decode (message_of env) = Val (JDict pairs) ->
  lit "name" ∈ pairs.*1 ->
  lit "description" ∈ pairs.*1 ->
  lit "language" ∈ pairs.*1 ->
  run Schema.main env = printed (lit "true").
Proof.
  intros Hd Hname Hdesc Hlang.
  apply (schema_run_all_members env (JDict pairs)); [done | exact I |].
  intros f Hf. cbn [member].
  repeat (apply elem_of_cons in Hf as [-> | Hf]); try done.
  by apply elem_of_nil in Hf.
Qed.

(** In particular on [{"name":"a","description":"b","language":"c"}]. *)
Lemma schema_all_keys_true_witness :
  run (Schema.main (py := cpython))
    (env_with (qlit "{'name':'a','description':'b','language':'c'}")) =
  printed (lit "true").
Proof.
  apply (schema_all_keys_true _
           [(lit "name", JStr (lit "a")); (lit "description", JStr (lit "b"));
            (lit "language", JStr (lit "c"))]).
  - vm_compute. reflexivity.
  - vm_compute. repeat constructor.
  - vm_compute. repeat constructor.
  - vm_compute. repeat constructor.
Defined.

(** C5, schema validator, as the code runs it at the failing input: a
    message of more opening brackets than the interpreter has nested calls
    left is no JSON document, but the decoder does not get to say so: it
    raises [RecursionError], which is no [JSONDecodeError].  The handler
    lets it pass: nothing is printed and the exit status is 1, where the
    claim promises a line that starts with [Output is not valid JSON:]. *)
Theorem schema_deep_document_uncaught {py : interpreter} :
  ~ blank (replicate (S max_nesting) (ch "[")) /\
  decode (replicate (S max_nesting) (ch "[")) = Raise RecursionError /\
  run Schema.main (env_with (replicate (S max_nesting) (ch "["))) =
    Outcome [] 1 (Some RecursionError).
Proof.
  split; [| split].
  - intros Hb. apply Forall_inv in Hb. vm_compute in Hb. discriminate Hb.
  - apply decode_too_deep.
  - apply schema_run_limit; [| by right].
    rewrite message_of_env_with. apply decode_too_deep.
Qed.

(** C6: when the message is empty or white space throughout, the schema
    validator prints [No output received from AI] and hands nothing to the
    decoder. *)
Theorem schema_blank_message {py : interpreter} (env : gmap pystr pystr) :
  blank (message_of env) ->
  run Schema.main env = printed (lit "No output received from AI") /\
  run_decoded Schema.main env = [].
Proof. apply schema_run_blank. Qed.

Lemma schema_blank_message_witness :
  run (Schema.main (py := cpython)) (env_with (lit "  ")) =
    printed (lit "No output received from AI") /\
  run_decoded (Schema.main (py := cpython)) (env_with (lit "  ")) = [].
Proof.
  apply (schema_blank_message (env_with (lit "  "))).
  vm_compute. repeat constructor.
Defined.

(** C7: when [AI_LAST_MESSAGE] is absent or empty, the keyword validator
    prints [No AI response received] and ends with exit status 0. *)
Theorem keyword_empty_message {db : unicode_db} (env : gmap pystr pystr) :
  env !! AI_LAST_MESSAGE = None \/ env !! AI_LAST_MESSAGE = Some [] ->
  run Keyword.main env =
    Outcome (lit "No AI response received" ++ [10]) 0 None.
Proof.
  intros Hm. apply keyword_run_empty.
  destruct Hm as [Hm | Hm]; exact (f_equal (default (lit "")) Hm).
Qed.

Lemma keyword_empty_message_witness :
  run (Keyword.main (db := plain_db)) ∅ =
    Outcome (lit "No AI response received" ++ [10]) 0 None.
Proof.
  apply (keyword_empty_message (db := plain_db) ∅).
  left. vm_compute. reflexivity.
Defined.

(** C8: the output, the exit status and the reported exception of either
    validator are determined by the value of [AI_LAST_MESSAGE]: two runs in
    environments that agree on it end alike. *)
Theorem validators_deterministic {py : interpreter} {db : unicode_db} (env1 env2 : gmap pystr pystr) :
  env1 !! AI_LAST_MESSAGE = env2 !! AI_LAST_MESSAGE ->
  run Schema.main env1 = run Schema.main env2 /\
  run Keyword.main env1 = run Keyword.main env2.
Proof.
  intros Heq.
  pose proof (f_equal (default (lit "")) Heq) as Hm.
  change (message_of env1 = message_of env2) in Hm.
  split; [by apply schema_run_message | by apply keyword_run_message].
Qed.

Lemma validators_deterministic_witness :
  run (Schema.main (py := cpython)) (env_with (lit "hello")) =
    run (Schema.main (py := cpython)) (<[lit "HOME" := lit "/root"]> (env_with (lit "hello"))) /\
  run (Keyword.main (db := plain_db)) (env_with (lit "hello")) =
    run (Keyword.main (db := plain_db))
      (<[lit "HOME" := lit "/root"]> (env_with (lit "hello"))).
Proof.
  apply (validators_deterministic (db := plain_db)).
  vm_compute. reflexivity.
Defined.

(** C9: the key check is Python's membership test on whatever the decoder
    returned.  When the message decodes to a value that is no object and
    name, description and language are all members of it (items of the
    array, parts of the string), the validator prints [true]. *)
Theorem schema_true_without_mapping {py : interpreter} (env : gmap pystr pystr) (data : value) :
  decode (message_of env) = Val data ->
  (forall pairs, data <> JDict pairs) ->
  member (lit "name") data ->
  member (lit "description") data ->
  member (lit "language") data ->
  run Schema.main env = printed (lit "true").
Proof.
  intros Hd _ Hname Hdesc Hlang.
  apply (schema_run_all_members env data); [done | |].
  - by destruct data.
  - intros f Hf.
    repeat (apply elem_of_cons in Hf as [-> | Hf]); try done.
    by apply elem_of_nil in Hf.
Qed.

(** On the array ["name","description","language"]. *)
Lemma schema_true_without_mapping_witness :
  run (Schema.main (py := cpython)) (env_with (qlit "['name','description','language']")) =
  printed (lit "true").
Proof.
  apply (schema_true_without_mapping _
           (JList [JStr (lit "name"); JStr (lit "description");
                   JStr (lit "language")])).
  - vm_compute. reflexivity.
  - intros pairs Heq. discriminate Heq.
  - vm_compute. repeat constructor.
  - vm_compute. repeat constructor.
  - vm_compute. repeat constructor.
Defined.

(** C10: a message of white space only is not empty for the keyword
    validator: it searches the keywords, finds none and prints
    [Expected keywords but got: ], the first 200 characters of the message
    and [...], while the schema validator prints
    [No output received from AI] on the same message.  White space has no
    lower-case mapping in the character database. *)
Theorem keyword_blank_message {py : interpreter} {db : unicode_db} (env : gmap pystr pystr) :
  (forall c, isspace c = true -> 128 <= c -> to_lower_full c = [c]) ->
  message_of env <> [] ->
  blank (message_of env) ->
  run Keyword.main env =
    printed (lit "Expected keywords but got: " ++ take 200 (message_of env) ++
             lit "...") /\
  run Schema.main env = printed (lit "No output received from AI").
Proof.
  intros Hdb Hm Hb. split.
  - apply keyword_run_not_found; [done |]. by apply blank_no_keyword.
  - by apply schema_run_blank.
Qed.

Lemma keyword_blank_message_witness :
  run (Keyword.main (db := plain_db)) (env_with (lit " ")) =
    printed (lit "Expected keywords but got:  ...") /\
  run (Schema.main (py := cpython)) (env_with (lit " ")) = printed (lit "No output received from AI").
Proof.
  apply (keyword_blank_message (db := plain_db) (env_with (lit " "))).
  - intros c _ _. reflexivity.
  - vm_compute. discriminate.
  - vm_compute. repeat constructor.
Defined.

(** * Further properties of the scripts *)

(** ** The schema validator, by cases *)

(** The five ways a run of the schema validator ends. *)
Lemma schema_run_cases {py : interpreter} (env : gmap pystr pystr) :
  (blank (message_of env) /\
   run Schema.main env = printed (lit "No output received from AI")) \/
  (exists msg pos,
     decode (message_of env) = Raise (JSONDecodeError msg (message_of env) pos) /\
     run Schema.main env =
       printed (lit "Output is not valid JSON: " ++
                errmsg msg (message_of env) pos)) \/
  (exists data missing,
     decode (message_of env) = Val data /\ container data /\
     Schema.missing_fields data Schema.required = Val missing /\
     run Schema.main env =
       printed (if truthy missing
                then lit "Missing required fields: " ++ join (lit ", ") missing
                else lit "true")) \/
  (exists data tp,
     decode (message_of env) = Val data /\ ~ container data /\
     run Schema.main env = Outcome [] 1 (Some (TypeError tp))) \/
  (exists e,
     decode (message_of env) = Raise e /\
     (e = ValueError \/ e = RecursionError) /\
     run Schema.main env = Outcome [] 1 (Some e)).
Proof.
  destruct (decide (blank (message_of env))) as [Hb | Hb].
  { left. split; [done |]. by apply schema_run_blank. }
  destruct (decode_total (message_of env))
    as [[data Hd] | [(msg & pos & Hd) | Hd]].
  - destruct (decide (container data)) as [Hc | Hc].
    + destruct (missing_fields_container data Schema.required Hc)
        as (missing & Hm & _).
      right; right; left. exists data, missing.
      repeat split; try done. by apply (schema_run_checked env data).
    + destruct (missing_fields_scalar data Hc) as [tp Hm].
      right; right; right; left. exists data, tp.
      repeat split; try done. by apply (schema_run_raised env data).
  - right; left. exists msg, pos. split; [done |].
    by apply schema_run_refused.
  - right; right; right; right. destruct Hd as [Hd | Hd].
    + exists ValueError. split; [done |]. split; [by left |].
      apply schema_run_limit; [done | by left].
    + exists RecursionError. split; [done |]. split; [by right |].
      apply schema_run_limit; [done | by right].
Qed.

(** The exit status is 1 exactly when the message decodes to a number, a
    boolean or null, or when the decoder runs into a limit of the
    interpreter; then nothing was written.  In every other case the status
    is 0 and what was written is one of the lines of the source: the line
    for a blank message, the line for a refused document with the text of
    its error, [true], or the line of the missing fields. *)
Theorem schema_status {py : interpreter} (env : gmap pystr pystr) :
  (status (run Schema.main env) = 1 <->
     (exists data, decode (message_of env) = Val data /\ ~ container data) \/
     decode (message_of env) = Raise ValueError \/
     decode (message_of env) = Raise RecursionError) /\
  (status (run Schema.main env) = 1 -> output (run Schema.main env) = []) /\
  (status (run Schema.main env) <> 1 ->
     run Schema.main env = printed (lit "No output received from AI") \/
     (exists msg pos,
        run Schema.main env =
          printed (lit "Output is not valid JSON: " ++
                   errmsg msg (message_of env) pos)) \/
     run Schema.main env = printed (lit "true") \/
     (exists missing,
        missing <> [] /\ sublist missing Schema.required /\
        run Schema.main env =
          printed (lit "Missing required fields: " ++
                   join (lit ", ") missing))).
Proof.
  destruct (schema_run_cases env)
    as [[Hb Hrun] | [(msg & pos & Hd & Hrun) |
        [(data & missing & Hd & Hc & Hm & Hrun) |
         [(data & tp & Hd & Hc & Hrun) | (e & Hd & He & Hrun)]]]];
    rewrite Hrun; cbn [status output printed].
  - split; [| split]; [| done | intros _; by left]. split; [done |].
    intros [(data & Hd & _) | [Hd | Hd]].
    + by apply decoded_not_blank in Hd.
    + apply decode_blank in Hb as (msg & pos & Hs). congruence.
    + apply decode_blank in Hb as (msg & pos & Hs). congruence.
  - split; [| split]; [| done | intros _; right; left; by exists msg, pos].
    split; [done |]. intros [(data & Hd' & _) | [Hd' | Hd']]; congruence.
  - split; [| split]; [| done |].
    + split; [done |].
      intros [(data' & Hd' & Hc') | [Hd' | Hd']]; congruence.
    + intros _. right; right.
      destruct (missing_fields_container data Schema.required Hc)
        as (missing' & Hm' & Hsub & _).
      assert (missing' = missing) as -> by congruence.
      destruct missing as [|f missing]; [by left |].
      right. exists (f :: missing). by repeat split.
  - split; [| split]; [| done | done]. split; [| done].
    intros _. left. by exists data.
  - split; [| split]; [| done | done]. split; [| done].
    intros _. right. by destruct He as [-> | ->]; [left | right].
Qed.

(** [true] is printed for no other message than one that decodes to an
    object, an array or a string with the three names as members. *)
Theorem schema_true_iff {py : interpreter} (env : gmap pystr pystr) :
  run Schema.main env = printed (lit "true") <->
  exists data,
    decode (message_of env) = Val data /\ container data /\
    forall f, f ∈ Schema.required -> member f data.
Proof.
  split.
  - intros Htrue.
    destruct (schema_run_cases env)
      as [[Hb Hrun] | [(msg & pos & Hd & Hrun) |
          [(data & missing & Hd & Hc & Hm & Hrun) |
           [(data & tp & Hd & Hc & Hrun) | (e & Hd & He & Hrun)]]]];
      rewrite Hrun in Htrue.
    + vm_compute in Htrue. discriminate Htrue.
    + apply (f_equal output) in Htrue. cbn in Htrue. discriminate Htrue.
    + exists data. split; [done |]. split; [done |].
      destruct (missing_fields_container data Schema.required Hc)
        as (missing' & Hm' & _ & Hin).
      assert (missing' = missing) as -> by congruence.
      destruct missing as [|g missing].
      * intros f Hf.
        destruct (contains_container data f Hc) as ([|] & _ & Hmem);
          [by apply Hmem |].
        assert (Hfm : f ∈ @nil pystr).
        { apply Hin. split; [done |]. by intros Hx%Hmem. }
        by apply elem_of_nil in Hfm.
      * apply (f_equal output) in Htrue. cbn in Htrue. discriminate Htrue.
    + discriminate Htrue.
    + discriminate Htrue.
  - intros (data & Hd & Hc & Hall). by apply (schema_run_all_members env data).
Qed.

Lemma missing_fields_agree (d1 d2 : value) (fields : list pystr) :
  container d1 -> container d2 ->
  (forall f, f ∈ fields -> (member f d1 <-> member f d2)) ->
  Schema.missing_fields d1 fields = Schema.missing_fields d2 fields.
Proof.
  intros Hc1 Hc2. induction fields as [|f fields IH]; intros Hagree; [done |].
  destruct (contains_container d1 f Hc1) as (b1 & Hb1 & Hm1).
  destruct (contains_container d2 f Hc2) as (b2 & Hb2 & Hm2).
  cbn [Schema.missing_fields]. rewrite Hb1, Hb2, IH.
  - assert (b1 = b2) as ->; [| done].
    assert (Hf : member f d1 <-> member f d2) by (apply Hagree; by left).
    destruct b1, b2; try done.
    + assert (false = true); [| done]. apply Hm2, Hf, Hm1. done.
    + assert (false = true); [| done]. apply Hm1, Hf, Hm2. done.
  - intros g Hg. apply Hagree. by right.
Qed.

(** The check looks at membership of the three names and at nothing else:
    two documents that decode to objects, arrays or strings with the same
    ones of name, description and language as members end alike, whatever
    their values and their other content. *)
Theorem schema_verdict_by_membership {py : interpreter} (env1 env2 : gmap pystr pystr) d1 d2 :
  decode (message_of env1) = Val d1 ->
  decode (message_of env2) = Val d2 ->
  container d1 -> container d2 ->
  (forall f, f ∈ Schema.required -> (member f d1 <-> member f d2)) ->
  run Schema.main env1 = run Schema.main env2.
Proof.
  intros Hd1 Hd2 Hc1 Hc2 Hagree.
  destruct (missing_fields_container d1 Schema.required Hc1)
    as (missing & Hm1 & _).
  pose proof Hm1 as Hm2.
  rewrite (missing_fields_agree d1 d2 _ Hc1 Hc2 Hagree) in Hm2.
  rewrite (schema_run_checked env1 d1 missing Hd1 Hm1).
  by rewrite (schema_run_checked env2 d2 missing Hd2 Hm2).
Qed.

(** An object whose [name] is null and one with a long text and further
    keys. *)
Lemma schema_verdict_by_membership_witness :
  run (Schema.main (py := cpython)) (env_with (qlit "{'name': null}")) =
  run (Schema.main (py := cpython)) (env_with (qlit "{'id': 7, 'name': 'a long text'}")).
Proof.
  apply (schema_verdict_by_membership _ _
           (JDict [(lit "name", JNull)])
           (JDict [(lit "id", JInt 7); (lit "name", JStr (lit "a long text"))])).
  - vm_compute. reflexivity.
  - vm_compute. reflexivity.
  - exact I.
  - exact I.
  - intros f Hf. cbn [member].
    repeat (apply elem_of_cons in Hf as [-> | Hf]).
    + split; intros _; vm_compute; repeat constructor.
    + split; intros Hin; cbn in Hin;
        repeat (apply elem_of_cons in Hin as [Hin | Hin]);
        try discriminate Hin; by apply elem_of_nil in Hin.
    + split; intros Hin; cbn in Hin;
        repeat (apply elem_of_cons in Hin as [Hin | Hin]);
        try discriminate Hin; by apply elem_of_nil in Hin.
    + by apply elem_of_nil in Hf.
Defined.

(** For a decoded object, array or string the validator prints one of
    eight fixed lines: nothing of the message is echoed. *)
Theorem schema_checked_lines {py : interpreter} (env : gmap pystr pystr) (data : value) :
  decode (message_of env) = Val data ->
  container data ->
  run Schema.main env ∈
    [printed (lit "true");
     printed (lit "Missing required fields: name");
     printed (lit "Missing required fields: description");
     printed (lit "Missing required fields: language");
     printed (lit "Missing required fields: name, description");
     printed (lit "Missing required fields: name, language");
     printed (lit "Missing required fields: description, language");
     printed (lit "Missing required fields: name, description, language")].
Proof.
  intros Hd Hc.
  destruct (contains_container data (lit "name") Hc) as (b1 & Hb1 & _).
  destruct (contains_container data (lit "description") Hc) as (b2 & Hb2 & _).
  destruct (contains_container data (lit "language") Hc) as (b3 & Hb3 & _).
  assert (Hm : Schema.missing_fields data Schema.required =
               Val ((if negb b1 then [lit "name"] else []) ++
                    (if negb b2 then [lit "description"] else []) ++
                    (if negb b3 then [lit "language"] else []))).
  { unfold Schema.required. cbn [Schema.missing_fields].
    rewrite Hb1, Hb2, Hb3. by destruct b1, b2, b3. }
  rewrite (schema_run_checked env data _ Hd Hm).
  destruct b1, b2, b3; vm_compute; repeat constructor.
Qed.

Lemma schema_checked_lines_witness :
  run (Schema.main (py := cpython)) (env_with (qlit "['description', 'x', 1]")) ∈
    [printed (lit "true");
     printed (lit "Missing required fields: name");
     printed (lit "Missing required fields: description");
     printed (lit "Missing required fields: language");
     printed (lit "Missing required fields: name, description");
     printed (lit "Missing required fields: name, language");
     printed (lit "Missing required fields: description, language");
     printed (lit "Missing required fields: name, description, language")].
Proof.
  apply (schema_checked_lines _
           (JList [JStr (lit "description"); JStr (lit "x"); JInt 1])).
  - vm_compute. reflexivity.
  - exact I.
Defined.

(** The emptiness test strips the message, the decoder gets it unstripped:
    a message that starts with white space the JSON grammar does not know
    (a form feed, a no-break space, ...) and is not white space throughout
    is reported as invalid at its first character, whatever follows. *)
Theorem schema_unstripped_document {py : interpreter} (env : gmap pystr pystr) (c : Z) (t : pystr) :
  message_of env = c :: t ->
  isspace c = true ->
  is_ws c = false ->
  ~ blank (c :: t) ->
  run Schema.main env =
    printed (lit "Output is not valid JSON: Expecting value: line 1 column 1 (char 0)").
Proof.
  intros Hmsg Hc Hws Hb.
  assert (Hd : decode (c :: t) = Raise (JSONDecodeError expecting_value (c :: t) 0)).
  { unfold decode. cbn [startswith].
    destruct (Z.eqb_spec c 65279) as [-> | _];
      [vm_compute in Hc; discriminate Hc |].
    cbn [andb]. unfold scan_document, fuel_for. cbn [skip_ws]. rewrite Hws.
    replace (2 * length (c :: t) + 2)%nat
      with (S (2 * length (c :: t) + 1)) by lia.
    rewrite scan_once_refuses by (by apply isspace_bounds).
    cbn [and_then]. do 2 f_equal. simpl. lia. }
  rewrite <- Hmsg in Hb, Hd.
  rewrite (schema_run_refused env _ _ _ Hb Hd). reflexivity.
Qed.

(** A no-break space before an object. *)
Lemma schema_unstripped_document_witness :
  run (Schema.main (py := cpython)) (env_with (160 :: qlit "{'name':'a'}")) =
    printed (lit "Output is not valid JSON: Expecting value: line 1 column 1 (char 0)").
Proof.
  apply (schema_unstripped_document _ 160 (qlit "{'name':'a'}")).
  - vm_compute. reflexivity.
  - vm_compute. reflexivity.
  - vm_compute. reflexivity.
  - intros Hb. apply Forall_inv_tail, Forall_inv in Hb.
    vm_compute in Hb. discriminate Hb.
Defined.

(** ** Exit status and size of the output of the keyword validator *)

(** The keyword validator ends with exit status 0 on every message and no
    exception reaches the top; what it has written is one of the three
    lines of the source and the newline of [print]: the line for the empty
    message, [true], or the rejection with the head of the message. *)
Theorem keyword_status_zero {db : unicode_db} (env : gmap pystr pystr) :
  status (run Keyword.main env) = 0 /\
  traceback (run Keyword.main env) = None /\
  (output (run Keyword.main env) = lit "No AI response received" ++ [10] \/
   output (run Keyword.main env) = lit "true" ++ [10] \/
   output (run Keyword.main env) =
     lit "Expected keywords but got: " ++ take 200 (message_of env) ++
     lit "..." ++ [10]).
Proof.
  destruct (keyword_run_cases env)
    as [[_ Hrun] | [(_ & _ & Hrun) | (_ & _ & Hrun)]];
    rewrite Hrun; cbn [status traceback output printed];
    (split; [done |]); (split; [done |]).
  - by left.
  - right. by left.
  - right. right. by rewrite <- !app_assoc.
Qed.

(** However long the message is, the keyword validator writes at most 231
    characters: the 27 of [Expected keywords but got: ], 200 of the
    message, the 3 dots and the newline. *)
Theorem keyword_output_bounded {db : unicode_db} (env : gmap pystr pystr) :
  (length (output (run Keyword.main env)) <= 231)%nat.
Proof.
  destruct (keyword_run_cases env)
    as [[_ Hrun] | [(_ & _ & Hrun) | (_ & _ & Hrun)]];
    rewrite Hrun; cbn [output printed].
  - vm_compute. lia.
  - vm_compute. lia.
  - rewrite !length_app, length_take.
    change (length (lit "Expected keywords but got: ")) with 27%nat.
    change (length (lit "...")) with 3%nat.
    pose proof (Nat.le_min_l 200 (length (message_of env))) as Hmin.
    cbn [length]. lia.
Qed.

(** ** Keywords in any letter case *)

(** A keyword written in any mix of upper and lower case, anywhere in the
    message (also inside a longer word, also after the 200th character),
    makes the validator print [true]. *)
Theorem keyword_any_case_anywhere {db : unicode_db} (env : gmap pystr pystr)
    (pre w post keyword : pystr) :
  keyword ∈ Keyword.keywords ->
  ascii_lower <$> w = keyword ->
  message_of env = pre ++ w ++ post ->
  run Keyword.main env = printed (lit "true").
Proof.
  intros Hk Hw Hmsg.
  destruct (keywords_plain keyword Hk) as (Hlow & Hne & Hascii).
  assert (Hwa : Forall (fun c => 0 <= c < 128) w).
  { rewrite <- Hw in Hascii. apply Forall_fmap in Hascii.
    eapply Forall_impl; [exact Hascii |]. intros c. apply ascii_lower_range. }
  apply keyword_true_iff. split.
  - rewrite Hmsg. intros Hnil.
    apply app_eq_nil in Hnil as [_ Hnil]. apply app_eq_nil in Hnil as [-> _].
    by subst keyword.
  - exists keyword. split; [exact Hk |].
    rewrite Hlow, Hmsg. unfold lower, occurs_in.
    destruct (do_lower_app [] pre (w ++ post)) as [low ->].
    rewrite do_lower_ascii_app, Hw by done. eauto.
Qed.

(** [SHIFT] holds [hi] in upper case. *)
Lemma keyword_any_case_anywhere_witness :
  run (Keyword.main (db := plain_db)) (env_with (lit "press SHIFT")) =
  printed (lit "true").
Proof.
  apply (keyword_any_case_anywhere (db := plain_db) _
           (lit "press S") (lit "HI") (lit "FT") (lit "hi")).
  - vm_compute. repeat constructor.
  - vm_compute. reflexivity.
  - vm_compute. reflexivity.
Defined.

(** On ASCII messages the verdict does not depend on letter case: two
    messages that agree once their capital letters are made small are both
    accepted or both rejected. *)
Theorem keyword_ascii_case {db : unicode_db} (env1 env2 : gmap pystr pystr) :
  Forall (fun c => 0 <= c < 128) (message_of env1) ->
  Forall (fun c => 0 <= c < 128) (message_of env2) ->
  ascii_lower <$> message_of env1 = ascii_lower <$> message_of env2 ->
  (run Keyword.main env1 = printed (lit "true") <->
   run Keyword.main env2 = printed (lit "true")).
Proof.
  intros H1 H2 Heq. rewrite !keyword_true_iff.
  unfold mentions_keyword. rewrite (lower_ascii _ H1), (lower_ascii _ H2), Heq.
  assert (Hnil : message_of env1 = [] <-> message_of env2 = []).
  { split; intros Hm; rewrite Hm in Heq.
    - symmetry in Heq. by apply fmap_nil_inv in Heq.
    - by apply fmap_nil_inv in Heq. }
  tauto.
Qed.

Lemma keyword_ascii_case_witness :
  run (Keyword.main (db := plain_db)) (env_with (lit "Run The TESTS")) =
    printed (lit "true") <->
  run (Keyword.main (db := plain_db)) (env_with (lit "run the tests")) =
    printed (lit "true").
Proof.
  apply (keyword_ascii_case (db := plain_db)).
  - vm_compute message_of. repeat (constructor; [lia |]). constructor.
  - vm_compute message_of. repeat (constructor; [lia |]). constructor.
  - vm_compute. reflexivity.
Defined.

(** ** Lines of output *)

Lemma newlines_app (a b : pystr) : newlines (a ++ b) = (newlines a + newlines b)%nat.
Proof. unfold newlines. by rewrite filter_app, length_app. Qed.

(** The rejection line echoes the head of the message as it is: every
    newline among the first 200 characters of a rejected message adds a
    line to the output. *)
Theorem keyword_rejection_lines {db : unicode_db} (env : gmap pystr pystr) :
  message_of env <> [] ->
  ~ mentions_keyword (message_of env) ->
  newlines (output (run Keyword.main env)) =
    S (newlines (take 200 (message_of env))).
Proof.
  intros Hm Hk. rewrite (keyword_run_not_found env Hm Hk).
  cbn [output printed]. rewrite !newlines_app.
  change (newlines (lit "Expected keywords but got: ")) with 0%nat.
  change (newlines (lit "...")) with 0%nat.
  change (newlines [10]) with 1%nat. lia.
Qed.

(** A message of two lines is answered on two lines. *)
Lemma keyword_rejection_lines_witness :
  newlines (output (run (Keyword.main (db := plain_db))
                      (env_with [97; 10; 98]))) = 2%nat.
Proof.
  apply (keyword_rejection_lines (db := plain_db) (env_with [97; 10; 98])).
  - vm_compute. discriminate.
  - intros Hk%any_keyword. vm_compute in Hk. discriminate Hk.
Defined.

(** ** The line for a refused document *)

(** When the message is not blank and [json.loads] raises
    [JSONDecodeError], the validator prints [Output is not valid JSON: ]
    and the text of the error: its message, then the line, the column and
    the position it was raised at, counted as the decoder counts them. *)
Theorem schema_refused_line {py : interpreter} (env : gmap pystr pystr)
    (msg : pystr) (pos : nat) :
  ~ blank (message_of env) ->
  decode (message_of env) = Raise (JSONDecodeError msg (message_of env) pos) ->
  run Schema.main env =
    printed (lit "Output is not valid JSON: " ++ msg ++
             lit ": line " ++
             str_of_nat (lineno (take pos (message_of env)) 1) ++
             lit " column " ++
             str_of_nat (colno (take pos (message_of env)) 1) ++
             lit " (char " ++ str_of_nat pos ++ lit ")").
Proof.
  intros Hb Hd. rewrite (schema_run_refused env _ _ _ Hb Hd).
  unfold errmsg. reflexivity.
Qed.

(** A colon is missing on the second line of the message. *)
Lemma schema_refused_line_witness :
  run (Schema.main (py := cpython))
    (env_with (qlit "{'name': 'a'," ++ [10] ++ qlit " 'language' 'c'}")) =
  printed (lit "Output is not valid JSON: Expecting ':' delimiter: line 2 column 13 (char 26)").
Proof.
  rewrite (schema_refused_line (py := cpython) _ expecting_colon 26).
  - vm_compute. reflexivity.
  - intros Hb. apply Forall_inv in Hb. vm_compute in Hb. discriminate Hb.
  - vm_compute. reflexivity.
Defined.
